(** * The string column of cudf

  A shallow embedding of [python/cudf/cudf/core/column/string.py]:
  the [StringMethods] facade (the [.str] accessor) and the
  [StringColumn] class, followed by the properties of the column's
  specification that are settled on it.

  Python objects become records and inductive types, the dictionaries
  of the serialization header become finite maps, and the calls that
  reach the accelerator (buffer allocation through [rmm], the
  primitives of [nvstrings] and [nvcategory]) are threaded through a
  state-and-exception monad whose state is the trace of those calls. *)

From Stdlib Require Import ZArith Ascii String Lia.
From stdpp Require Import base option list gmap strings.

(** ** Python values, exceptions *)

Module Py.

(** The exceptions raised in [string.py], or by the dictionary, list
    and name lookups it performs. *)
Inductive exn :=
| NotImplementedError (msg : string)
| TypeError (msg : string)
| ValueError (msg : string)
| KeyError (key : string)
| IndexError
| NameError (name : string)
| AttributeError (attr : string)
| AssertionError.

Inductive res (A : Type) :=
| Ok (a : A)
| Raise (e : exn).
Global Arguments Ok {A} a.
Global Arguments Raise {A} e.

(** The values an option-like keyword argument of the facade can
    take: [case], [expand], [na]. [VNan] is the object [np.nan]
    itself; [VFloat] is any other float object (another NaN
    included), which matters because the source compares with [is]. *)
Inductive value :=
| VNone
| VBool (b : bool)
| VInt (z : Z)
| VNan
| VFloat (id : nat)
| VStr (s : string).

(** [x is True], [x is None], [x is False], [x is np.nan]. *)
Definition is_True (v : value) : bool :=
  match v with VBool true => true | _ => false end.
Definition is_False (v : value) : bool :=
  match v with VBool false => true | _ => false end.
Definition is_None (v : value) : bool :=
  match v with VNone => true | _ => false end.
Definition is_nan_object (v : value) : bool :=
  match v with VNan => true | _ => false end.






End Py.
Export Py.

(** ** The device: allocation and primitive calls *)

Module Device.

(** Element types of the arrays that occur in the file. *)
Inductive dtype := Int8 | Int32 | Bool8.

Global Instance dtype_eq_dec : EqDecision dtype.
Proof. solve_decision. Defined.

(** [numpy.dtype(...).str] *)
Definition dtype_str (d : dtype) : string :=
  match d with
  | Int8 => "|i1"
  | Int32 => "<i4"
  | Bool8 => "|b1"
  end.

(** What reaches the device, in program order. *)
Inductive event :=
| EvDeviceArray (n : nat) (dt : dtype)   (* rmm.device_array(n, dtype=dt) *)
| EvToDevice (n : nat)                   (* a host array uploaded *)
| EvCall (method : string).              (* a primitive of nvstrings / nvcategory *)

Definition dev := list event.

(** Where an array lives. A device pointer identifies the allocation:
    two arrays with the same pointer are the same memory. *)
Inductive place :=
| Host
| OnDevice (ptr : nat).

(** An array, on the host ([numpy]) or on the device ([rmm], [numba]). *)
Record ndarray := {
  a_place : place;
  a_dtype : dtype;
  a_items : list Z
}.

(** The state-and-exception monad: an exception keeps the trace of
    what ran before it was raised. *)
Definition M (A : Type) : Type := dev → res A * dev.

Global Instance M_ret : MRet M := λ A a st, (Ok a, st).
Global Instance M_bind : MBind M := λ A B f m st,
  match m st with
  | (Ok a, st') => f a st'
  | (Raise e, st') => (Raise e, st')
  end.

Global Instance M_fmap : FMap M := λ A B f m st,
  match m st with
  | (Ok a, st') => (Ok (f a), st')
  | (Raise e, st') => (Raise e, st')
  end.

Definition raise {A} (e : exn) : M A := λ st, (Raise e, st).
Definition lift {A} (r : res A) : M A := λ st, (r, st).

(** [rmm.device_array(n, dtype=dt)]: fresh, uninitialised memory
    (read as zeros until a primitive writes to it). *)
Definition device_array (n : nat) (dt : dtype) : M ndarray := λ st,
  (Ok {| a_place := OnDevice (length st); a_dtype := dt; a_items := replicate n 0%Z |},
   st ++ [EvDeviceArray n dt]).

(** [np.empty(n, dtype=dt)]: uninitialised host memory. *)
Definition np_empty (n : nat) (dt : dtype) : ndarray :=
  {| a_place := Host; a_dtype := dt; a_items := replicate n 0%Z |}.

(** [cudautils.to_device(arr)]: the host array uploaded to fresh
    device memory. *)
Definition to_device (a : ndarray) : M ndarray := λ st,
  (Ok {| a_place := OnDevice (length st); a_dtype := a_dtype a; a_items := a_items a |},
   st ++ [EvToDevice (length (a_items a))]).

(** A primitive of the string engine that runs and returns [v]. *)
Definition call {A} (method : string) (v : A) : M A := λ st,
  (Ok v, st ++ [EvCall method]).

(** A primitive that fills the caller's buffer through its pointer:
    it writes [v] from the start of the buffer, and nothing beyond
    the buffer's end. *)
Definition store (a : ndarray) (v : list Z) : ndarray :=
  {| a_place := a_place a; a_dtype := a_dtype a;
     a_items := take (length (a_items a)) v ++ drop (length v) (a_items a) |}.

(** Wrap-around of the fixed-width element types. *)
Definition to_int8 (z : Z) : Z :=
  let m := (z mod 256)%Z in if (m <? 128)%Z then m else (m - 256)%Z.
Definition to_int32 (z : Z) : Z :=
  let m := (z mod 2 ^ 32)%Z in if (m <? 2 ^ 31)%Z then m else (m - 2 ^ 32)%Z.

(** [cudf.core.buffer.Buffer(arr)]: a column's handle on an array. *)
Record Buffer := { mem : ndarray }.

End Device.
Export Device.

(** ** [cudf.utils.utils] *)

Module utils.

(** Modelled from the spec: a validity bitmap has
    [ceil(row_count / bits_per_word)] words; the masks of this file
    are arrays of int8, so a word has 8 bits. [utils] is defined
    outside [string.py]. *)
Definition mask_bitsize : nat := 8.
Definition calc_chunk_size (size chunksize : nat) : nat :=
  size / chunksize + (if decide (size `mod` chunksize = 0) then 0 else 1).

End utils.

(** ** String storage: the [nvstrings] object *)

Module nvs.

(** Modelled from the spec: the String Storage ([nvstrings], an engine
    outside [string.py]) holds N rows, each a byte string or null.
    The spec's offsets, chars and validity bitmap are the layout it
    exports through [to_offsets]. *)
Abbreviation nvstrings := (list (option string)).

(** Modelled from the spec: [size()], the row count. *)
Definition size (d : nvstrings) : nat := length d.

(** Modelled from the spec: [null_count()], the count of unset
    validity bits. *)
Definition null_count (d : nvstrings) : Z :=
  Z.of_nat (length (filter (λ r, r = None) d)).

Definition row_len (r : option string) : nat :=
  match r with Some s => String.length s | None => 0 end.

(** Modelled from the spec: [byte_count()], the length of the flat
    character buffer; a null row has a zero-length span. *)
Definition byte_count (d : nvstrings) : nat :=
  foldr (λ r acc, row_len r + acc) 0 d.

(** The bytes of a row as elements of an int8 array, and back. *)
Definition byte_of_ascii (a : ascii) : Z := to_int8 (Z.of_nat (nat_of_ascii a)).
Definition ascii_of_byte (z : Z) : ascii := ascii_of_nat (Z.to_nat (z mod 256)).

Definition row_bytes (r : option string) : list Z :=
  match r with
  | Some s => byte_of_ascii <$> list_ascii_of_string s
  | None => []
  end.

(** Modelled from the spec: [chars], the rows' bytes back to back. *)
Definition chars (d : nvstrings) : list Z := d ≫= row_bytes.

(** Modelled from the spec: [offsets], the N+1 prefix sums of the
    rows' byte lengths, starting at 0. *)
Fixpoint offsets_from (acc : Z) (d : nvstrings) : list Z :=
  match d with
  | [] => [acc]
  | r :: d' => acc :: offsets_from (acc + Z.of_nat (row_len r)) d'
  end.
Definition offsets (d : nvstrings) : list Z := offsets_from 0 d.

(** Modelled from the spec: the packed validity bitmap, one bit per
    row, LSB first, 1 = valid, in 8-bit words; the bits after the last
    row are 0. *)
Definition valid_bit (d : nvstrings) (i : nat) : bool :=
  match d !! i with Some (Some _) => true | _ => false end.
Definition pack_bits (bits : list bool) : Z :=
  foldr (λ b acc, Z.b2z b + 2 * acc)%Z 0%Z bits.
Definition mask_word (d : nvstrings) (j : nat) : Z :=
  to_int8 (pack_bits ((λ k, valid_bit d (8 * j + k)) <$> seq 0 8)).
Definition bitmask (d : nvstrings) : list Z :=
  mask_word d <$> seq 0 (utils.calc_chunk_size (size d) utils.mask_bitsize).

(** Modelled from the spec: [set_null_bitmask(dst)] exports the
    current validity as a packed bitmap. *)
Definition set_null_bitmask (d : nvstrings) : list Z := bitmask d.

(** Modelled from the spec: [to_offsets(dst_chars, dst_offsets,
    dst_mask)] exports the three buffers of the interchange layout:
    int8 chars, int32 offsets, the packed bitmap. *)
Definition to_offsets (d : nvstrings) : list Z * list Z * list Z :=
  (chars d, to_int32 <$> offsets d, bitmask d).

(** Modelled from the spec: [from_offsets(chars, offsets, count,
    nbuf=bitmap, ncount=nulls)] rebuilds a storage from the raw
    buffers: row i is null when bit i of the bitmap is unset, and the
    bytes between offsets i and i+1 otherwise. What lies outside a
    buffer reads as 0. *)
Definition from_offsets_row (sbuf obuf nbuf : list Z) (i : nat) : option string :=
  if Z.testbit (nbuf !!! (i / 8)) (Z.of_nat (i `mod` 8)) then
    let lo := Z.to_nat (obuf !!! i) in
    let hi := Z.to_nat (obuf !!! S i) in
    Some (string_of_list_ascii (ascii_of_byte <$> take (hi - lo) (drop lo sbuf)))
  else None.
Definition from_offsets (sbuf obuf : list Z) (scount : nat) (nbuf : list Z)
    (ncount : Z) : nvstrings :=
  from_offsets_row sbuf obuf nbuf <$> seq 0 scount.

(** Modelled from the spec: [fillna] replaces each null row with the
    literal, or with the row at the same position of the other
    storage (the row stays null where that one is null or missing). *)
Fixpoint fill_rows (d f : nvstrings) : nvstrings :=
  match d with
  | [] => []
  | r :: d' =>
      (match r with Some x => Some x | None => mjoin (head f) end)
        :: fill_rows d' (tail f)
  end.
Definition fillna (d : nvstrings) (fill : string + nvstrings) : nvstrings :=
  match fill with
  | inl s => (λ r, Some (default s r)) <$> d
  | inr f => fill_rows d f
  end.

(** Modelled from the spec and the docstring of [StringMethods.cat]:
    with no other operand, the rows are joined with [sep] into the one
    row of the result, null rows omitted when [na_rep] is unset and
    replaced by it otherwise. *)
Definition join (d : nvstrings) (sep : option string) (na_rep : option string) : nvstrings :=
  let kept := omap (λ r, match r with Some s => Some s | None => na_rep end) d in
  [Some (String.concat (default "" sep) kept)].

(** Modelled from the spec: element-wise [cat(other, sep, na_rep)]; a
    row is null if either side is null and [na_rep] is unset, and
    [na_rep] stands for a null operand otherwise. *)
Definition cat_rows (sep na_rep : option string) (a b : option string) : option string :=
  match (match a with Some s => Some s | None => na_rep end),
        (match b with Some s => Some s | None => na_rep end) with
  | Some x, Some y => Some (x +:+ default "" sep +:+ y)
  | _, _ => None
  end.
Definition cat (d : nvstrings) (others : option nvstrings) (sep na_rep : option string)
    : nvstrings :=
  match others with
  | None => join d sep na_rep
  | Some o => zip_with (cat_rows sep na_rep) d o
  end.

End nvs.

(** ** External capabilities *)

(** The string engine's row-wise primitives and the category engine
    are opaque capabilities of the column: only their call contract is
    used. Each takes the storage it runs on first or last, as noted. *)
Class Engine := {
  (** [d.cat(others=o, sep=sep, na_rep=na_rep)], [d] first *)
  nvs_cat : nvs.nvstrings → option nvs.nvstrings → option string → option string →
            nvs.nvstrings;
  nvs_len : nvs.nvstrings → list Z;
  nvs_contains : string → bool → nvs.nvstrings → list Z;
  nvs_replace : string → string → Z → bool → nvs.nvstrings → nvs.nvstrings;
  nvs_lower : nvs.nvstrings → nvs.nvstrings;
  nvs_split : option string → Z → nvs.nvstrings → list nvs.nvstrings;
  nvs_extract : string → nvs.nvstrings → list nvs.nvstrings;
  (** [nvcategory.from_strings(d).keys()] *)
  nvc_keys : nvs.nvstrings → nvs.nvstrings
}.

(** ** The objects of [cudf.core] that [string.py] builds and reads *)

Module core.

(** Instance state of [StringColumn], as [__init__] sets it. *)
Record StringColumn := {
  _data : nvs.nvstrings;
  _name : option string;
  _null_count : Z;
  _mask : option Buffer;
  _nvcategory : option nvs.nvstrings;
  _indices : option Buffer
}.

(** Modelled from the spec: the typed (non-string) column that
    [column.build_column(Buffer(arr), dtype, mask=mask)] wraps around
    a raw device output and its mask; [build_column] is defined
    outside [string.py]. *)
Record TypedColumn := {
  tc_data : Buffer;
  tc_dtype : dtype;
  tc_mask : option Buffer
}.
Definition build_column (data : Buffer) (dt : dtype) (mask : option Buffer) : TypedColumn :=
  {| tc_data := data; tc_dtype := dt; tc_mask := mask |}.

Inductive Column :=
| StrCol (c : StringColumn)
| NumCol (c : TypedColumn).

(** Row labels, passed through untouched. *)
Definition Index := list Z.

(** [cudf.Series]: a column with its index and its name. *)
Record Series := {
  _column : Column;
  index : option Index;
  name : option string
}.

(** [cudf.DataFrame(index=...)] filled by [out_df[idx] = val]. *)
Record DataFrame := {
  df_index : option Index;
  df_columns : list (nat * StringColumn)
}.

(** The accessor object [StringMethods(parent, index)]. *)
Record StringMethods := {
  _parent : StringColumn;
  _index : option Index
}.

End core.
Export core.

(** ** The wire format of [serialize] / [deserialize] *)

Module wire.

(** Values of a sub-header, the descriptor of one frame. *)
Inductive sval :=
| SStr (s : string)
| SShape (dims : list nat)
| SData (p : place) (read_only : bool)
| SInt (z : Z).

(** Values of the header. [HType] is [pickle.dumps] of a class. *)
Inductive hval :=
| HInt (z : Z)
| HType (class : string)
| HSubs (subs : list (gmap string sval)).

(** Modelled from the spec: [item.__cuda_array_interface__] of a
    device array, reduced to what a sub-header needs to describe the
    frame: its shape, its element type tag and its data pointer. *)
Definition cuda_array_interface (a : ndarray) : gmap string sval :=
  <["shape" := SShape [length (a_items a)]]>
  (<["typestr" := SStr (dtype_str (a_dtype a))]>
  (<["data" := SData (a_place a) false]> ∅)).

(** A transport frame as [deserialize] can receive it. *)
Inductive frame :=
| FMemoryView (raw : list Z)
| FArray (a : ndarray)
| FBufferRegion (raw : list Z) (typestr shape : option sval).

(** [header[key]] and [xs[i]] *)
Definition getitem {V} (m : gmap string V) (key : string) : res V :=
  match m !! key with Some v => Ok v | None => Raise (KeyError key) end.
Definition index_list {A} (l : list A) (i : nat) : res A :=
  match l !! i with Some a => Ok a | None => Raise IndexError end.

End wire.
Export wire.

(** [np.frombuffer(buf, dtype=dt)]: the host library that reinterprets
    a received buffer as an array; outside the column. *)
Class Numpy := {
  np_frombuffer : frame → sval → res ndarray
}.

(** ** [class StringColumn] *)

Module StringColumn.

(** What a caller can pass as [data]: the storage object, a host
    sequence of strings, or anything else. *)
Inductive data_arg :=
| DataNv (d : nvs.nvstrings)
| DataSeq (l : list (option string))
| DataOther.

(** [StringColumn.__init__(self, data, null_count=None, name=None, **kwargs)] *)
Definition __init__ (data : data_arg) (null_count : option Z) (name : option string)
    : M StringColumn :=
  data ← match data with
         | DataSeq l => call "to_device" (l : nvs.nvstrings)
         | DataNv d => mret d
         | DataOther => raise AssertionError
         end;
  null_count ← match null_count with
               | None => call "null_count" (nvs.null_count data)
               | Some n => mret n
               end;
  mask ← (if (0 <? null_count)%Z then
            let mask_size := utils.calc_chunk_size (nvs.size data) utils.mask_bitsize in
            out_mask_arr ← device_array mask_size Int8;
            out_mask_arr ← call "set_null_bitmask"
                             (store out_mask_arr (nvs.set_null_bitmask data));
            mret (Some {| mem := out_mask_arr |})
          else mret None);
  mret {| _data := data; _name := name; _null_count := null_count; _mask := mask;
          _nvcategory := None; _indices := None |}.

(** [__len__], and the properties [data], [null_count], [mask]. *)
Definition __len__ (self : StringColumn) : nat := nvs.size (_data self).
Definition data (self : StringColumn) : nvs.nvstrings := _data self.
Definition null_count (self : StringColumn) : Z := _null_count self.
Definition mask (self : StringColumn) : M (option Buffer) := mret (_mask self).

(** [pa.py_buffer(arr)] and the arrays [pyarrow] builds from buffers. *)
Record pa_buffer := { buf_dtype : dtype; buf_items : list Z }.
Definition py_buffer (a : ndarray) : pa_buffer :=
  {| buf_dtype := a_dtype a; buf_items := a_items a |}.
(** [pa.py_buffer(b"")] *)
Definition py_buffer_empty : pa_buffer := {| buf_dtype := Int8; buf_items := [] |}.

Inductive arrow_array :=
| NullArray (length : nat) (buffers : list pa_buffer) (null_count : Z)
| StringArray (length : nat) (value_offsets data null_bitmap : pa_buffer) (null_count : Z).

(** The bytes an exported array carries in its buffers. *)
Definition payload_size (a : arrow_array) : nat :=
  match a with
  | NullArray _ bufs _ => sum_list (length ∘ buf_items <$> bufs)
  | StringArray _ o s n _ =>
      length (buf_items o) + length (buf_items s) + length (buf_items n)
  end.

(** [to_arrow]. [self.str().to_offsets(...)] reaches the storage
    object through the accessor's [__getattr__], which forwards the
    attributes it does not define. *)
Definition to_arrow (self : StringColumn) : M arrow_array :=
  n_bytes ← call "byte_count" (nvs.byte_count (_data self));
  let sbuf := np_empty n_bytes Int8 in
  let obuf := np_empty (nvs.size (_data self) + 1) Int32 in
  let mask_size := utils.calc_chunk_size (nvs.size (_data self)) utils.mask_bitsize in
  let nbuf := np_empty mask_size Int8 in
  '(sbuf, obuf, nbuf) ← call "to_offsets"
      (let '(c, o, b) := nvs.to_offsets (_data self) in
       (store sbuf c, store obuf o, store nbuf b));
  let sbuf := py_buffer sbuf in
  let obuf := py_buffer obuf in
  let nbuf := py_buffer nbuf in
  if decide (null_count self = Z.of_nat (__len__ self)) then
    mret (NullArray (__len__ self) [py_buffer_empty] (null_count self))
  else
    nulls ← call "null_count" (nvs.null_count (_data self));
    mret (StringArray (nvs.size (_data self)) obuf sbuf nbuf nulls).

(** [serialize] *)
Definition serialize (self : StringColumn) : M (gmap string hval * list frame) :=
  let header : gmap string hval := {[ "null_count" := HInt (_null_count self) ]} in
  let header := <["type" := HType "StringColumn"]> header in
  n_bytes ← call "byte_count" (nvs.byte_count (_data self));
  sbuf ← device_array n_bytes Int8;
  obuf ← device_array (nvs.size (_data self) + 1) Int32;
  let mask_size := utils.calc_chunk_size (nvs.size (_data self)) utils.mask_bitsize in
  nbuf ← device_array mask_size Int8;
  '(sbuf, obuf, nbuf) ← call "to_offsets"
      (let '(c, o, b) := nvs.to_offsets (data self) in
       (store sbuf c, store obuf o, store nbuf b));
  let '(sub_headers, frames) :=
    foldl (λ '(sub_headers, frames) item,
             let sheader := cuda_array_interface item in
             let sheader := <["dtype" := SStr (dtype_str (a_dtype item))]> sheader in
             (sub_headers ++ [sheader], frames ++ [FArray item]))
          ([], []) [nbuf; sbuf; obuf] in
  let header := <["nvstrings" := HInt (Z.of_nat (nvs.size (_data self)))]> header in
  let header := <["subheaders" := HSubs sub_headers]> header in
  let header := <["frame_count" := HInt (Z.of_nat (length frames))]> header in
  mret (header, frames).

(** One turn of the loop of [deserialize] over [enumerate(frames)].
    [dtype] is the local variable of that name: bound only once a
    memoryview frame has been seen. The result is the pointer
    appended to [arrays]. *)
Definition deserialize_frame `{Numpy} (header : gmap string hval) (i : nat) (fr : frame)
    (dtype : option sval) : M (ndarray * option sval) :=
  let subheader : res (gmap string sval) :=
    match getitem header "subheaders" with
    | Ok (HSubs subs) => index_list subs i
    | Ok _ => Raise (TypeError "object is not subscriptable")
    | Raise e => Raise e
    end in
  match fr with
  | FMemoryView _ =>
      sheader ← lift subheader;
      dtype ← lift (getitem sheader "dtype");
      arr ← lift (np_frombuffer fr dtype);
      arr ← to_device arr;
      mret (arr, Some dtype)
  | FArray a => mret (a, dtype)
  | FBufferRegion raw _ _ =>
      sheader ← lift subheader;
      let fr := FBufferRegion raw
                  (Some (default (SStr "B") (sheader !! "dtype")))
                  (Some (default (SInt (Z.of_nat (length raw))) (sheader !! "shape"))) in
      match dtype with
      | None => raise (NameError "dtype")
      | Some dt =>
          arr ← lift (np_frombuffer fr dt);
          arr ← to_device arr;
          mret (arr, dtype)
      end
  end.

Fixpoint deserialize_frames `{Numpy} (header : gmap string hval) (i : nat)
    (frames : list frame) (dtype : option sval) (arrays : list ndarray)
    : M (list ndarray) :=
  match frames with
  | [] => mret arrays
  | fr :: rest =>
      '(ptr, dtype) ← deserialize_frame header i fr dtype;
      deserialize_frames header (S i) rest dtype (arrays ++ [ptr])
  end.

(** [deserialize] (a classmethod): it returns the storage object that
    [nvstrings.from_offsets] rebuilds. *)
Definition deserialize `{Numpy} (header : gmap string hval) (frames : list frame)
    : M nvs.nvstrings :=
  arrays ← deserialize_frames header 0 frames None [];
  scount ← lift (getitem header "nvstrings");
  sbuf ← lift (index_list arrays 1);
  obuf ← lift (index_list arrays 2);
  nbuf ← lift (index_list arrays 0);
  ncount ← lift (getitem header "null_count");
  match scount, ncount with
  | HInt scount, HInt ncount =>
      call "from_offsets"
        (nvs.from_offsets (a_items sbuf) (a_items obuf) (Z.to_nat scount)
           (a_items nbuf) ncount)
  | _, _ => raise (TypeError "an integer is required")
  end.

(** Modelled from the spec: [Column.replace] of the base class,
    defined outside [string.py]. A column is immutable and
    every mutating-looking call returns a new instance: [replace]
    constructs a column of the same class from this one's data and
    name; a [mask] argument is one of the extra keywords that
    [StringColumn.__init__] does not read, and the null count is taken
    from the storage again. *)
Definition replace_mask (self : StringColumn) (mask : option Buffer) : M StringColumn :=
  __init__ (DataNv (_data self)) None (_name self).

(** Modelled from the spec: [Column._mimic_inplace(result, inplace)]
    of the base class: with [inplace] the result's state replaces
    [self]'s and nothing is returned, otherwise the new column is
    returned. The pair is [self] after the call and the value
    returned. *)
Definition _mimic_inplace (self result : StringColumn) (inplace : bool)
    : StringColumn * option StringColumn :=
  if inplace then (result, None) else (self, Some result).

(** What a caller can pass as [fill_value]: a scalar object (a [str]
    is [VStr]), a series, or a column object that is not wrapped in a
    series. *)
Inductive fill_arg :=
| FillValue (v : value)
| FillSeries (s : Series)
| FillColumn (c : Column).

(** [fillna]. The first test lets through every [str] and every
    series over a string column, and nothing else; only a series goes
    through the length test. *)
Definition fillna (self : StringColumn) (fill_value : fill_arg) (inplace : bool)
    : M (StringColumn * option StringColumn) :=
  fill ← match fill_value with
         | FillValue (VStr s) => mret (inl s)
         | FillSeries {| _column := StrCol c |} =>
             if decide (nvs.size (_data c) < __len__ self) then
               raise (ValueError
                 "fill value series must be of same or greater length than the series to be filled")
             else mret (inr (take (__len__ self) (_data c)))
         | _ => raise (TypeError "fill_value must be a string or a string series")
         end;
  filled_data ← call "fillna" (nvs.fillna (_data self) fill);
  result ← __init__ (DataNv filled_data) None None;
  result ← replace_mask result None;
  mret (_mimic_inplace self result inplace).

(** [unique]: the [method] argument is not read. *)
Definition unique `{Engine} (self : StringColumn) (method : value) : M StringColumn :=
  keys ← call "nvcategory.from_strings.keys" (nvc_keys (data self));
  __init__ (DataNv keys) None None.






End StringColumn.

(** ** [cudf.core.series], as far as the facade uses it *)

Module series.

(** Modelled from the spec: a raw device output that is a storage
    object is re-wrapped as a new String Column
    ([Series(nvstrings, index=..., name=...)], through
    [column.as_column]); [cudf.core.series] is defined outside
    [string.py]. *)
Definition of_string_column (c : StringColumn) (index : option Index)
    (name : option string) : Series :=
  {| _column := StrCol c; index := index; name := name |}.
Definition of_nvstrings (d : nvs.nvstrings) (index : option Index) (name : option string)
    : M Series :=
  c ← StringColumn.__init__ (StringColumn.DataNv d) None None;
  mret (of_string_column c index name).

(** Modelled from the spec: [Series(host_sequence).data] uploads the
    host strings wholesale and hands out the storage object. *)
Definition host_data (l : list (option string)) : M nvs.nvstrings :=
  c ← StringColumn.__init__ (StringColumn.DataSeq l) None None;
  mret (StringColumn.data c).

(** [Series(col, index=..., name=...)] around a column built by
    [build_column]. *)
Definition of_column (c : TypedColumn) (index : option Index) (name : option string)
    : Series :=
  {| _column := NumCol c; index := index; name := name |}.

End series.

(** ** [class StringMethods] *)

Module StringMethods.

(** [self._parent.name]: the name the parent carries. *)
Definition parent_name (self : StringMethods) : option string := _name (_parent self).

(** [len] *)
Definition len `{Engine} (self : StringMethods) : M Series :=
  out_dev_arr ← device_array (StringColumn.__len__ (_parent self)) Int32;
  out_dev_arr ← call "len"
                  (store out_dev_arr (nvs_len (StringColumn.data (_parent self))));
  mask ← (if (0 <? StringColumn.null_count (_parent self))%Z
          then StringColumn.mask (_parent self)
          else mret None);
  let col := build_column {| mem := out_dev_arr |} Int32 mask in
  mret (series.of_column col (_index self) (parent_name self)).

(** The [others] argument of [cat]. The source looks at the first
    element of a list-like only, and hands anything it does not
    recognise to the storage as it is; the embedding covers [None], a
    cudf Series or Index, a [pandas] Series or Index, and the
    non-empty list-likes whose elements are all of the kind of the
    first: plain strings, or list-likes and series of strings. *)
Inductive cat_item :=
| ItemSeries (s : Series)
| ItemHost (l : list (option string)).

Inductive cat_others :=
| OthersNone
| OthersSeries (s : Series)
| OthersNested (first : list (option string) + StringColumn) (rest : list cat_item)
| OthersFlat (first : option string) (rest : list (option string))
| OthersPandas (l : list (option string)).

(** [frame.data] after [assert frame.dtype == np.dtype("object")] *)
Definition string_data (s : Series) : M nvs.nvstrings :=
  match _column s with
  | StrCol c => mret (StringColumn.data c)
  | NumCol _ => raise AssertionError
  end.

(** The loop of [cat] over the frames after the first. *)
Fixpoint cat_frames `{Engine} (first : nvs.nvstrings) (frames : list cat_item)
    (sep na_rep : option string) : M nvs.nvstrings :=
  match frames with
  | [] => mret first
  | frame :: rest =>
      frame ← match frame with
              | ItemSeries s => string_data s
              | ItemHost l => series.host_data l
              end;
      first ← call "cat" (nvs_cat first (Some frame) sep na_rep);
      cat_frames first rest sep na_rep
  end.

(** What [cat] returns: a series, or the one string [out[0]] (which
    is [None] for a null row). *)
Inductive cat_result :=
| CatSeries (s : Series)
| CatScalar (s : option string).

(** [cat] *)
Definition cat `{Engine} (self : StringMethods) (others : cat_others)
    (sep na_rep : option string) : M cat_result :=
  others ← match others with
           | OthersSeries s => Some <$> string_data s
           | OthersNested first rest =>
               first ← match first with
                       | inl l => series.host_data l
                       | inr c => mret (StringColumn.data c)
                       end;
               Some <$> cat_frames first rest sep na_rep
           | OthersFlat first rest => Some <$> series.host_data (first :: rest)
           | OthersPandas l => Some <$> series.host_data l
           | OthersNone => mret None
           end;
  out ← call "cat" (nvs_cat (StringColumn.data (_parent self)) others sep na_rep);
  out ← StringColumn.__init__ (StringColumn.DataNv out) None None;
  if decide (StringColumn.__len__ out = 1 ∧ others = None) then
    mret (CatScalar (mjoin (StringColumn.data out !! 0)))
  else
    mret (CatSeries (series.of_string_column out (_index self) (parent_name self))).

(** [join] *)
Definition join (self : StringMethods) (sep : string) : M Series :=
  raise (NotImplementedError "Columns of arrays / lists are not yet supported").

(** A table or a single series. *)
Inductive frame_result :=
| RSeries (s : Series)
| RFrame (df : DataFrame).

(** [out_df = DataFrame(index=...)], then [out_df[idx] = val] over
    [enumerate(out)]. *)
Fixpoint fill_frame (out_df : DataFrame) (idx : nat) (out : list nvs.nvstrings)
    : M DataFrame :=
  match out with
  | [] => mret out_df
  | val :: rest =>
      c ← StringColumn.__init__ (StringColumn.DataNv val) None None;
      fill_frame {| df_index := df_index out_df;
                    df_columns := df_columns out_df ++ [(idx, c)] |} (S idx) rest
  end.

(** [extract] *)
Definition extract `{Engine} (self : StringMethods) (pat : string) (flags : Z)
    (expand : value) : M frame_result :=
  if decide (flags ≠ 0%Z) then
    raise (NotImplementedError "`flags` parameter is not yet supported")
  else
    out ← call "extract" (nvs_extract pat (StringColumn.data (_parent self)));
    if bool_decide (length out = 1) && is_False expand then
      out0 ← lift (index_list out 0);
      s ← series.of_nvstrings out0 (_index self) (parent_name self);
      mret (RSeries s)
    else
      out_df ← fill_frame {| df_index := _index self; df_columns := [] |} 0 out;
      mret (RFrame out_df).

(** [contains] *)
Definition contains `{Engine} (self : StringMethods) (pat : string) (case : value)
    (flags : Z) (na : value) (regex : bool) : M Series :=
  if negb (is_True case) then
    raise (NotImplementedError "`case` parameter is not yet supported")
  else if decide (flags ≠ 0%Z) then
    raise (NotImplementedError "`flags` parameter is not yet supported")
  else if negb (is_nan_object na) then
    raise (NotImplementedError "`na` parameter is not yet supported")
  else
    out_dev_arr ← device_array (StringColumn.__len__ (_parent self)) Bool8;
    out_dev_arr ← call "contains"
                    (store out_dev_arr
                       (nvs_contains pat regex (StringColumn.data (_parent self))));
    mask ← (if (0 <? StringColumn.null_count (_parent self))%Z
            then StringColumn.mask (_parent self)
            else mret None);
    let col := build_column {| mem := out_dev_arr |} Bool8 mask in
    mret (series.of_column col (_index self) (parent_name self)).

(** [replace] *)
Definition replace `{Engine} (self : StringMethods) (pat repl : string) (n : Z)
    (case : value) (flags : Z) (regex : bool) : M Series :=
  if negb (is_None case) then
    raise (NotImplementedError "`case` parameter is not yet supported")
  else if decide (flags ≠ 0%Z) then
    raise (NotImplementedError "`flags` parameter is not yet supported")
  else
    let n := if decide (n = 0%Z) then (-1)%Z else n in
    out ← call "replace"
            (nvs_replace pat repl n regex (StringColumn.data (_parent self)));
    series.of_nvstrings out (_index self) (parent_name self).

(** [lower] *)
Definition lower `{Engine} (self : StringMethods) : M Series :=
  out ← call "lower" (nvs_lower (StringColumn.data (_parent self)));
  series.of_nvstrings out (_index self) (parent_name self).

(** [split] *)
Definition split `{Engine} (self : StringMethods) (pat : option string) (n : Z)
    (expand : value) : M DataFrame :=
  if negb (is_True expand) then
    raise (NotImplementedError "`expand` parameter is not supported")
  else
    let n := if decide (n = 0%Z) then (-1)%Z else n in
    let out_df := {| df_index := _index self; df_columns := [] |} in
    out ← call "split" (nvs_split pat n (StringColumn.data (_parent self)));
    fill_frame out_df 0 out.

End StringMethods.

(** ** [class StringColumn]: the category caches, sorting, replacing *)

(** Further opaque primitives of the string and category engines. *)
Class MoreEngine := {
  (** [d.order(2, asc=asc, nullfirst=nf, devptr=...)], [d] last: the
      permutation it writes *)
  nvs_order : bool → bool → nvs.nvstrings → list Z;
  (** [d.gather(indices)], [d] last *)
  nvs_gather : list Z → nvs.nvstrings → nvs.nvstrings;
  (** [nvcategory.from_strings(d).values(devptr=...)]: the per-row
      indices it writes *)
  nvc_values : nvs.nvstrings → list Z;
  (** [d.replace(pat, repl)] with host values and the engine's
      defaults, [d] last *)
  nvs_replace_value : option string → option string → nvs.nvstrings → nvs.nvstrings
}.

Module StringColumnRest.

(** [self._nvcategory = v] and [self._indices = v] *)
Definition set_nvcategory (self : StringColumn) (v : option nvs.nvstrings) : StringColumn :=
  {| _data := _data self; _name := _name self; _null_count := _null_count self;
     _mask := _mask self; _nvcategory := v; _indices := _indices self |}.
Definition set_indices (self : StringColumn) (v : option Buffer) : StringColumn :=
  {| _data := _data self; _name := _name self; _null_count := _null_count self;
     _mask := _mask self; _nvcategory := _nvcategory self; _indices := v |}.

(** The property [nvcategory]. The category object
    [nvc.from_strings(d)] is represented by the storage [d] it was
    built from; its keys and values are those the engines give for
    [d]. The pair is [self] after the access and the value read. *)
Definition nvcategory (self : StringColumn) : M (StringColumn * nvs.nvstrings) :=
  match _nvcategory self with
  | None =>
      cat ← call "nvcategory.from_strings" (StringColumn.data self);
      mret (set_nvcategory self (Some cat), cat)
  | Some cat => mret (self, cat)
  end.

(** The property [indices]; [nvcategory.size()] is the number of rows
    the category indexes. *)
Definition indices `{MoreEngine} (self : StringColumn) : M (StringColumn * Buffer) :=
  match _indices self with
  | None =>
      '(self, cat) ← nvcategory self;
      out_dev_arr ← device_array (nvs.size cat) Int32;
      '(self, cat) ← nvcategory self;
      out_dev_arr ← call "nvcategory.values" (store out_dev_arr (nvc_values cat));
      mret (set_indices self (Some {| mem := out_dev_arr |}), {| mem := out_dev_arr |})
  | Some b => mret (self, b)
  end.

(** [is_unique] *)
Definition is_unique `{Engine} (self : StringColumn) : M bool :=
  u ← StringColumn.unique self (VStr "sort");
  mret (bool_decide (StringColumn.__len__ u = StringColumn.__len__ self)).

(** Modelled from the spec: [self[indices]] of the base class, defined
    outside [string.py], gathers the rows at the indices into a new
    String Column. *)
Definition getitem_indices `{MoreEngine} (self : StringColumn) (indices : ndarray)
    : M StringColumn :=
  rows ← call "gather" (nvs_gather (a_items indices) (StringColumn.data self));
  StringColumn.__init__ (StringColumn.DataNv rows) None None.

(** [sort_by_values]. [nullfirst] is bound by the two tests on
    [na_position] only. *)
Definition sort_by_values `{MoreEngine} (self : StringColumn) (ascending : bool)
    (na_position : string) : M (StringColumn * TypedColumn) :=
  let nullfirst : option bool :=
    if decide (na_position = "last") then Some false
    else if decide (na_position = "first") then Some true
    else None in
  idx_dev_arr ← device_array (StringColumn.__len__ self) Int32;
  nullfirst ← match nullfirst with
              | Some b => mret b
              | None => raise (NameError "nullfirst")
              end;
  idx_dev_arr ← call "order"
                  (store idx_dev_arr (nvs_order ascending nullfirst (StringColumn.data self)));
  let col_inds := build_column {| mem := idx_dev_arr |} (a_dtype idx_dev_arr) None in
  col_keys ← getitem_indices self (mem (tc_data col_inds));
  mret (col_keys, col_inds).

(** Modelled from the spec: [Column.replace(data=...)] of the base
    class, defined outside [string.py], returns a new column of the
    same class with the data given and the other fields of this one. *)
Definition replace_data (self : StringColumn) (data : nvs.nvstrings) : M StringColumn :=
  StringColumn.__init__ (StringColumn.DataNv data) (Some (_null_count self)) (_name self).

(** [find_and_replace]. The two arguments are taken as host sequences
    of strings, which [column.as_column] turns into string columns;
    [to_host()[0]] is the first row back on the host. *)
Definition find_and_replace `{MoreEngine} (self : StringColumn)
    (to_replace replacement : list (option string)) (all_nan : value) : M StringColumn :=
  to_replace ← StringColumn.__init__ (StringColumn.DataSeq to_replace) None None;
  replacement ← StringColumn.__init__ (StringColumn.DataSeq replacement) None None;
  if decide (StringColumn.__len__ to_replace = 1 ∧ StringColumn.__len__ replacement = 1) then
    to_replace ← call "to_host" (mjoin (StringColumn.data to_replace !! 0));
    replacement ← call "to_host" (mjoin (StringColumn.data replacement !! 0));
    result ← call "replace" (nvs_replace_value to_replace replacement (StringColumn.data self));
    replace_data self result
  else
    raise (NotImplementedError "StringColumn currently only supports replacing single values").

End StringColumnRest.

(** ** Concrete collaborators *)

(** An engine to evaluate the column on concrete rows: [cat] follows
    the storage model of the spec, [len] gives byte lengths, the
    pattern primitives are those of a pattern that matches nowhere,
    and the category keys are the distinct rows in first-seen order. *)
Definition plain_engine : Engine := {|
  nvs_cat := nvs.cat;
  nvs_len := λ d, (λ r, Z.of_nat (nvs.row_len r)) <$> d;
  nvs_contains := λ _ _ d, (λ _, 0%Z) <$> d;
  nvs_replace := λ _ _ _ _ d, d;
  nvs_lower := λ d, d;
  nvs_split := λ _ _ d, [d];
  nvs_extract := λ _ _, [];
  nvc_keys := λ d, remove_dups d
|}.

(** A host library that is handed no raw buffer to reinterpret. *)
Definition no_host_buffers : Numpy := {|
  np_frombuffer := λ _ _, Raise (TypeError "a bytes-like object is required")
|}.

(** The columns [["a", None, "c"]] and [["x", None]] of the spec's
    examples, an all-null column and the empty column, as
    [StringColumn(seq)] builds them. *)
Definition built (rows : list (option string)) : StringColumn :=
  match StringColumn.__init__ (StringColumn.DataSeq rows) None None [] with
  | (Ok c, _) => c
  | (Raise _, _) =>
      {| _data := []; _name := None; _null_count := 0; _mask := None;
         _nvcategory := None; _indices := None |}
  end.
Definition column_a_null_c : StringColumn := built [Some "a"; None; Some "c"].
Definition column_x_null : StringColumn := built [Some "x"; None].
Definition column_all_null : StringColumn := built [None; None].
Definition column_empty : StringColumn := built [].

(** ** Vocabulary of the properties *)

(** The call raised [NotImplementedError] with a message about
    parameter [p], and the device saw nothing: the trace is as
    before. *)
Definition rejects {A} (r : res A * dev) (st : dev) (p rest : string) : Prop :=
  r = (Raise (NotImplementedError ("`" +:+ p +:+ "` parameter is not " +:+ rest)), st).

(** The validity bitmaps built along a trace: each is one run of
    [set_null_bitmask] into a buffer allocated for it. *)
Definition builds_mask (e : event) : bool :=
  match e with
  | EvCall m => bool_decide (m = "set_null_bitmask")
  | _ => false
  end.
Definition masks_built (tr : dev) : nat := length (List.filter builds_mask tr).

(** The invariants of the data model that the wire format relies on:
    the column's null count mirrors its storage, and the chars fit the
    32-bit offsets. *)
Definition wf_column (c : StringColumn) : Prop :=
  _null_count c = nvs.null_count (_data c)
  ∧ (Z.of_nat (nvs.byte_count (_data c)) < 2 ^ 31)%Z.

(** An engine for the further primitives that leaves every row in
    place: the identity permutation, the rows at the indices given,
    index 0 everywhere, nothing replaced. *)
Definition plain_more_engine : MoreEngine := {|
  nvs_order := λ _ _ d, Z.of_nat <$> seq 0 (length d);
  nvs_gather := λ idx d, (λ i, mjoin (d !! Z.to_nat i)) <$> idx;
  nvc_values := λ d, (λ _, 0%Z) <$> d;
  nvs_replace_value := λ _ _ d, d
|}.

(** A host library for a transport whose buffers carry the element
    values themselves: a memoryview is read as an array of the dtype
    asked for. *)
Definition element_numpy : Numpy := {|
  np_frombuffer := λ fr dt,
    match fr, dt with
    | FMemoryView raw, SStr "|i1" =>
        Ok {| a_place := Host; a_dtype := Int8; a_items := raw |}
    | FMemoryView raw, SStr "<i4" =>
        Ok {| a_place := Host; a_dtype := Int32; a_items := raw |}
    | _, _ => Raise (TypeError "data type not understood")
    end
|}.

(** The rows a [data] argument of the constructor stands for. *)
Definition data_rows (data : StringColumn.data_arg) : nvs.nvstrings :=
  match data with
  | StringColumn.DataNv d => d
  | StringColumn.DataSeq l => l
  | StringColumn.DataOther => []
  end.

(** The device buffers allocated along a trace. *)
Definition allocates (e : event) : bool :=
  match e with EvDeviceArray _ _ => true | _ => false end.
Definition allocations (tr : dev) : nat := length (List.filter allocates tr).

(** The calls of one primitive along a trace. *)
Definition calls (method : string) (tr : dev) : nat :=
  length (List.filter (λ e, match e with
                            | EvCall m => bool_decide (m = method)
                            | _ => false
                            end) tr).

(** The storage behind an element of a nested [others] of [cat], when
    it is one of strings. *)
Definition item_rows (it : StringMethods.cat_item) : option nvs.nvstrings :=
  match it with
  | StringMethods.ItemHost l => Some l
  | StringMethods.ItemSeries s =>
      match _column s with StrCol c => Some (_data c) | NumCol _ => None end
  end.

(** ** Running the monad *)

Ltac run :=
  repeat (unfold mbind, M_bind, mret, M_ret, call, device_array, raise, lift,
            to_device, StringColumn.mask; cbn -[nvs.to_offsets nvs.from_offsets
            nvs.bitmask nvs.null_count nvs.fillna nvs.fill_rows
            utils.calc_chunk_size store np_empty]).

(** The same, with the constructor and the loops kept folded. *)
Ltac step :=
  repeat (unfold mbind, M_bind, mret, M_ret, call, device_array, raise, lift,
            to_device, StringColumn.mask; cbn -[nvs.to_offsets nvs.from_offsets
            nvs.bitmask nvs.null_count nvs.fillna nvs.fill_rows
            utils.calc_chunk_size store np_empty StringColumn.__init__
            StringMethods.fill_frame StringMethods.cat_frames]).

(** * Properties *)

(** ** C3: unsupported options *)

Section unsupported.
Context `{Engine}.

(** C3. A call of [contains] with [case] other than [True], [flags]
    other than 0 or [na] other than the default [np.nan], of [replace]
    with [case] set or [flags] other than 0, of [extract] with [flags]
    other than 0, or of [split] with [expand] other than [True],
    raises [NotImplementedError] naming an offending parameter (the
    first in the order above), and leaves the device trace untouched:
    nothing is allocated and no primitive runs. The message reads
    "`p` parameter is not yet supported", and "`expand` parameter is
    not supported" in [split]. *)
Theorem unsupported_option_fails_before_device_work (self : StringMethods) (st : dev) :
  (∀ pat case flags na regex,
     is_True case = false ∨ flags ≠ 0%Z ∨ is_nan_object na = false →
     ∃ p, rejects (StringMethods.contains self pat case flags na regex st) st p "yet supported"
          ∧ (p = "case" ∧ is_True case = false
             ∨ p = "flags" ∧ flags ≠ 0%Z
             ∨ p = "na" ∧ is_nan_object na = false))
  ∧ (∀ pat repl n case flags regex,
     is_None case = false ∨ flags ≠ 0%Z →
     ∃ p, rejects (StringMethods.replace self pat repl n case flags regex st) st p "yet supported"
          ∧ (p = "case" ∧ is_None case = false ∨ p = "flags" ∧ flags ≠ 0%Z))
  ∧ (∀ pat flags expand,
     flags ≠ 0%Z →
     rejects (StringMethods.extract self pat flags expand st) st "flags" "yet supported")
  ∧ (∀ pat n expand,
     is_True expand = false →
     rejects (StringMethods.split self pat n expand st) st "expand" "supported").
Proof.
  repeat split.
  - intros pat case flags na regex Hbad. unfold StringMethods.contains, rejects.
    destruct (is_True case) eqn:Ecase; cbn.
    + destruct (decide (flags ≠ 0%Z)) as [Hf|Hf]; cbn.
      * exists "flags". split; [reflexivity | auto].
      * destruct (is_nan_object na) eqn:Ena; cbn.
        -- exfalso. destruct Hbad as [?|[?|?]]; [discriminate | tauto | discriminate].
        -- exists "na". split; [reflexivity | auto].
    + exists "case". split; [reflexivity | auto].
  - intros pat repl n case flags regex Hbad. unfold StringMethods.replace, rejects.
    destruct (is_None case) eqn:Ecase; cbn.
    + destruct (decide (flags ≠ 0%Z)) as [Hf|Hf]; cbn.
      * exists "flags". split; [reflexivity | auto].
      * exfalso. destruct Hbad as [?|?]; [discriminate | tauto].
    + exists "case". split; [reflexivity | auto].
  - intros pat flags expand Hf. unfold StringMethods.extract, rejects.
    destruct (decide (flags ≠ 0%Z)); [reflexivity | tauto].
  - intros pat n expand He. unfold StringMethods.split, rejects.
    rewrite He. reflexivity.
Qed.

End unsupported.

(** [contains(pat, case=False)], [replace(.., flags=2)],
    [extract(.., flags=2)] and [split(.., expand=False)] on
    [["x", None]]. *)
Lemma unsupported_option_fails_before_device_work_witness :
  @StringMethods.contains plain_engine {| _parent := column_x_null; _index := None |}
      "x" (VBool false) 0 VNan true []
    = (Raise (NotImplementedError "`case` parameter is not yet supported"), [])
  ∧ @StringMethods.replace plain_engine {| _parent := column_x_null; _index := None |}
      "x" "y" (-1) VNone 2 true []
    = (Raise (NotImplementedError "`flags` parameter is not yet supported"), [])
  ∧ @StringMethods.extract plain_engine {| _parent := column_x_null; _index := None |}
      "(x)" 2 (VBool true) []
    = (Raise (NotImplementedError "`flags` parameter is not yet supported"), [])
  ∧ @StringMethods.split plain_engine {| _parent := column_x_null; _index := None |}
      (Some ",") (-1) (VBool false) []
    = (Raise (NotImplementedError "`expand` parameter is not supported"), []).
Proof.
  destruct (@unsupported_option_fails_before_device_work plain_engine
              {| _parent := column_x_null; _index := None |} [])
    as (Hcontains & Hreplace & Hextract & Hsplit).
  assert (Hflags : (2 ≠ 0)%Z) by discriminate.
  split; [|split; [|split]].
  - destruct (Hcontains "x" (VBool false) 0%Z VNan true (or_introl eq_refl))
      as (p & Hp & [[-> _]|[[_ Hf]|[_ Hna]]]);
      [exact Hp | contradiction | discriminate].
  - destruct (Hreplace "x" "y" (-1)%Z VNone 2%Z true (or_intror Hflags))
      as (p & Hp & [[_ Hc]|[-> _]]); [discriminate | exact Hp].
  - exact (Hextract "(x)" 2%Z (VBool true) Hflags).
  - exact (Hsplit (Some ",") (-1)%Z (VBool false) eq_refl).
Defined.

(** ** C6: binary operators *)

Section binary.
Context `{Engine}.


End binary.


(** ** C8: the mask of the outputs of [len] and [contains] *)

Section masks.
Context `{Engine}.

(** C8. [len], and [contains] called with its supported defaults,
    return a series over a new typed column whose mask is the mask
    buffer of the input column itself (the same device memory) when
    the input's null count is positive, and no mask when it is not. *)
Theorem len_and_contains_take_the_mask_of_the_input (self : StringMethods) (st : dev) :
  let parent := _parent self in
  let masked (r : res Series * dev) :=
    ∃ col st', r = (Ok (series.of_column col (_index self) (_name parent)), st')
      ∧ ((0 < _null_count parent)%Z → tc_mask col = _mask parent)
      ∧ (¬ (0 < _null_count parent)%Z → tc_mask col = None) in
  masked (StringMethods.len self st)
  ∧ ∀ pat regex, masked (StringMethods.contains self pat (VBool true) 0 VNan regex st).
Proof.
  cbv zeta. split; [|intros pat regex];
    unfold StringMethods.len, StringMethods.contains, StringMethods.parent_name,
      StringColumn.null_count; run;
    (destruct (0 <? _null_count (_parent self))%Z eqn:E; run;
     eexists; eexists; (split; [reflexivity|]); cbn; split; intros Hn;
     first [reflexivity | lia]).
Qed.

End masks.

(** On [["x", None]] the outputs carry the column's one-byte mask; on
    the same rows with the null filled they carry none. *)
Lemma len_and_contains_take_the_mask_of_the_input_witness :
  (∃ col st', @StringMethods.len plain_engine
                {| _parent := column_x_null; _index := None |} [] = (Ok col, st')
      ∧ ∃ c, _column col = NumCol c ∧ tc_mask c = _mask column_x_null
             ∧ is_Some (tc_mask c))
  ∧ (∃ col st', @StringMethods.contains plain_engine
                  {| _parent := built [Some "x"; Some "y"]; _index := None |}
                  "x" (VBool true) 0 VNan true [] = (Ok col, st')
      ∧ ∃ c, _column col = NumCol c ∧ tc_mask c = None).
Proof.
  split.
  - destruct (@len_and_contains_take_the_mask_of_the_input plain_engine
                {| _parent := column_x_null; _index := None |} [])
      as [(col & st' & E & Hpos & _) _].
    eexists; eexists; split; [exact E|]. exists col. split; [reflexivity|].
    split; [apply Hpos; vm_compute; reflexivity|].
    rewrite (Hpos ltac:(vm_compute; reflexivity)). vm_compute. eauto.
  - destruct (@len_and_contains_take_the_mask_of_the_input plain_engine
                {| _parent := built [Some "x"; Some "y"]; _index := None |} [])
      as [_ Hc].
    destruct (Hc "x" true) as (col & st' & E & _ & Hzero).
    eexists; eexists; split; [exact E|]. exists col. split; [reflexivity|].
    apply Hzero. vm_compute. discriminate.
Defined.

(** ** C10: [unique] and its [method] argument *)

Section uniqueness.
Context `{Engine}.

(** C10. [unique(method=m)] does what [unique()] does with the
    default "sort", for every column, every value [m] and every
    device state: the same column of distinct keys (those of the
    category engine, in its order) and the same calls. *)
Theorem unique_ignores_method (self : StringColumn) (m : value) (st : dev) :
  StringColumn.unique self m st = StringColumn.unique self (VStr "sort") st
  ∧ ∃ c st', StringColumn.unique self m st = (Ok c, st')
             ∧ _data c = nvc_keys (_data self).
Proof.
  split; [reflexivity|].
  unfold StringColumn.unique, StringColumn.__init__. run.
  destruct (0 <? _)%Z; run; eauto.
Qed.

End uniqueness.

(** ** The exported buffers have the sizes the callers allocate *)

Lemma store_exact (a : ndarray) (v : list Z) :
  length v = length (a_items a) → a_items (store a v) = v.
Proof.
  intros E. unfold store. cbn. rewrite <- E, take_ge, drop_ge by lia.
  apply app_nil_r.
Qed.

Lemma length_row_bytes (r : option string) :
  length (nvs.row_bytes r) = nvs.row_len r.
Proof.
  destruct r as [s|]; [|reflexivity]. cbn. rewrite length_fmap.
  induction s as [|a s IH]; cbn; congruence.
Qed.

Lemma length_chars (d : nvs.nvstrings) : length (nvs.chars d) = nvs.byte_count d.
Proof.
  induction d as [|r d IH]; [reflexivity|].
  unfold nvs.chars in *. cbn. rewrite length_app, length_row_bytes, IH. reflexivity.
Qed.

Lemma length_offsets_from (acc : Z) (d : nvs.nvstrings) :
  length (nvs.offsets_from acc d) = S (nvs.size d).
Proof. revert acc. induction d as [|r d IH]; intros acc; cbn; [|rewrite IH]; reflexivity. Qed.

Lemma length_bitmask (d : nvs.nvstrings) :
  length (nvs.bitmask d) = utils.calc_chunk_size (nvs.size d) utils.mask_bitsize.
Proof. unfold nvs.bitmask. now rewrite length_fmap, length_seq. Qed.

(** What [to_offsets] leaves in three buffers allocated as [to_arrow]
    and [serialize] allocate them. *)
Lemma to_offsets_fills (d : nvs.nvstrings) (sbuf obuf nbuf : ndarray) :
  length (a_items sbuf) = nvs.byte_count d →
  length (a_items obuf) = nvs.size d + 1 →
  length (a_items nbuf) = utils.calc_chunk_size (nvs.size d) utils.mask_bitsize →
  a_items (store sbuf (nvs.chars d)) = nvs.chars d
  ∧ a_items (store obuf (to_int32 <$> nvs.offsets d)) = to_int32 <$> nvs.offsets d
  ∧ a_items (store nbuf (nvs.bitmask d)) = nvs.bitmask d.
Proof.
  intros Hs Ho Hn. repeat split; apply store_exact.
  - now rewrite length_chars.
  - unfold nvs.offsets. rewrite length_fmap, length_offsets_from. lia.
  - now rewrite length_bitmask.
Qed.

(** ** C7 and C9: export to the interchange format *)

(** C7. [to_arrow] of a column whose null count equals its row count
    is a [NullArray] of that length that carries no payload: the only
    buffer handed over is the empty placeholder, 0 bytes. For every
    other column it is a [StringArray] over the int32 offsets, the
    chars and the validity bitmap that [to_offsets] exported, with the
    storage's null count. *)
Theorem to_arrow_null_array_or_string_array (self : StringColumn) (st : dev) :
  let n := nvs.size (_data self) in
  (_null_count self = Z.of_nat n →
     ∃ out st', StringColumn.to_arrow self st = (Ok out, st')
       ∧ out = StringColumn.NullArray n [StringColumn.py_buffer_empty] (_null_count self)
       ∧ StringColumn.payload_size out = 0)
  ∧ (_null_count self ≠ Z.of_nat n →
     ∃ st', StringColumn.to_arrow self st =
       (Ok (StringColumn.StringArray n
              {| StringColumn.buf_dtype := Int32;
                 StringColumn.buf_items := to_int32 <$> nvs.offsets (_data self) |}
              {| StringColumn.buf_dtype := Int8;
                 StringColumn.buf_items := nvs.chars (_data self) |}
              {| StringColumn.buf_dtype := Int8;
                 StringColumn.buf_items := nvs.bitmask (_data self) |}
              (nvs.null_count (_data self))), st')).
Proof.
  cbv zeta. unfold StringColumn.to_arrow, StringColumn.null_count, StringColumn.__len__.
  split; intros Hn; run; unfold nvs.to_offsets;
    (destruct (decide _) as [Heq|Hne]; try contradiction); run.
  - eexists; eexists. repeat split.
  - eexists. unfold StringColumn.py_buffer.
    destruct (to_offsets_fills (_data self)
                (np_empty (nvs.byte_count (_data self)) Int8)
                (np_empty (nvs.size (_data self) + 1) Int32)
                (np_empty (utils.calc_chunk_size (nvs.size (_data self))
                             utils.mask_bitsize) Int8))
      as (-> & -> & ->); try (cbn; now rewrite length_replicate).
    reflexivity.
Qed.

(** An all-null column and the column [["x", None]]. *)
Lemma to_arrow_null_array_or_string_array_witness :
  StringColumn.to_arrow column_all_null [] =
    (Ok (StringColumn.NullArray 2 [StringColumn.py_buffer_empty] 2),
     [EvCall "byte_count"; EvCall "to_offsets"])
  ∧ ∃ st', StringColumn.to_arrow column_x_null [] =
    (Ok (StringColumn.StringArray 2
           {| StringColumn.buf_dtype := Int32; StringColumn.buf_items := [0; 1; 1]%Z |}
           {| StringColumn.buf_dtype := Int8; StringColumn.buf_items := [120]%Z |}
           {| StringColumn.buf_dtype := Int8; StringColumn.buf_items := [1]%Z |}
           1), st').
Proof.
  split.
  - destruct (to_arrow_null_array_or_string_array column_all_null []) as [Hnull _].
    destruct (Hnull eq_refl) as (out & st' & E & -> & _).
    rewrite E. f_equal. vm_compute in E. congruence.
  - destruct (to_arrow_null_array_or_string_array column_x_null []) as [_ Hstr].
    destruct (Hstr ltac:(vm_compute; discriminate)) as (st' & E).
    exists st'. exact E.
Defined.

(** C9. [to_arrow] of an empty column whose null count is that of
    its storage (as the constructor sets it) is the [NullArray] of
    length 0, not a string array: the test [null_count == len(self)]
    holds at 0 = 0. *)
Theorem to_arrow_of_the_empty_column_is_a_null_array (self : StringColumn) (st : dev) :
  StringColumn.__len__ self = 0 →
  _null_count self = nvs.null_count (_data self) →
  ∃ st', StringColumn.to_arrow self st =
    (Ok (StringColumn.NullArray 0 [StringColumn.py_buffer_empty] 0), st').
Proof.
  intros Hlen Hnc. unfold StringColumn.__len__, nvs.size in Hlen.
  apply nil_length_inv in Hlen. rewrite Hlen in Hnc. cbn in Hnc.
  unfold StringColumn.to_arrow, StringColumn.null_count, StringColumn.__len__.
  rewrite Hlen, Hnc. run. eexists. reflexivity.
Qed.

Lemma to_arrow_of_the_empty_column_is_a_null_array_witness :
  StringColumn.__len__ column_empty = 0
  ∧ _null_count column_empty = nvs.null_count (_data column_empty)
  ∧ ∃ st', StringColumn.to_arrow column_empty [] =
      (Ok (StringColumn.NullArray 0 [StringColumn.py_buffer_empty] 0), st').
Proof.
  split; [reflexivity|]. split; [reflexivity|].
  apply (to_arrow_of_the_empty_column_is_a_null_array column_empty []); reflexivity.
Defined.

(** ** C2: when the validity mask is built *)

(** C2, as stated, fails on [["x", None]]: the constructor itself
    allocates the bitmap buffer and fills it, the column leaves the
    constructor with its mask, and reading the [mask] property
    afterwards builds nothing. *)
Lemma mask_is_built_by_the_constructor_counterexample :
  ∃ c st', StringColumn.__init__ (StringColumn.DataSeq [Some "x"; None]) None None []
             = (Ok c, st')
    ∧ st' = [EvCall "to_device"; EvCall "null_count"; EvDeviceArray 1 Int8;
             EvCall "set_null_bitmask"]
    ∧ masks_built st' = 1
    ∧ _mask c = Some {| mem := {| a_place := OnDevice 2; a_dtype := Int8;
                                  a_items := [1%Z] |} |}
    ∧ StringColumn.mask c st' = (Ok (_mask c), st').
Proof. eexists; eexists. repeat split. Qed.

(** C2, amended. The constructor builds the validity mask eagerly:
    for a storage object or a host sequence it succeeds, and it builds
    exactly one bitmap (an int8 buffer holding the storage's packed
    validity bits) when the column's null count is positive, and none
    when it is not, in which case the mask is [None]. The [mask]
    property returns the stored mask and runs nothing, on every
    access. *)
Theorem mask_is_built_by_the_constructor (data : StringColumn.data_arg)
    (null_count : option Z) (name : option string) (st : dev) :
  data ≠ StringColumn.DataOther →
  ∃ c new, StringColumn.__init__ data null_count name st = (Ok c, st ++ new)
    ∧ ((0 < _null_count c)%Z →
         masks_built new = 1
         ∧ _mask c = Some {| mem := {| a_place := OnDevice (length (st ++ new) - 2);
                                       a_dtype := Int8;
                                       a_items := nvs.bitmask (_data c) |} |})
    ∧ (¬ (0 < _null_count c)%Z → masks_built new = 0 ∧ _mask c = None)
    ∧ ∀ st2, StringColumn.mask c st2 = (Ok (_mask c), st2).
Proof.
  intros Hdata. unfold StringColumn.__init__.
  assert (Hfill : ∀ d p, a_items (store {| a_place := p; a_dtype := Int8;
                      a_items := replicate (utils.calc_chunk_size (nvs.size d)
                                              utils.mask_bitsize) 0%Z |}
                    (nvs.set_null_bitmask d)) = nvs.bitmask d).
  { intros d p. apply store_exact. cbn [a_items].
    rewrite length_replicate. apply length_bitmask. }
  destruct data as [d|l|]; [| |contradiction];
    destruct null_count as [n|]; run.
  all: match goal with
       | |- context [(0 <? ?n)%Z] => destruct (0 <? n)%Z eqn:E; run
       end.
  all: first [ eexists; eexists; split; [rewrite <- ?app_assoc; reflexivity|]
             | eexists; exists []; split; [rewrite app_nil_r; reflexivity|] ];
    cbn [_null_count _mask _data];
    (split; [|split]; [intros Hn; try lia | intros Hn; try lia | reflexivity]).
  all: try (split; reflexivity).
  all: split; [reflexivity|]; do 2 f_equal;
    rewrite ?length_app; cbn [length];
    unfold store; cbn [a_place a_dtype]; f_equal;
    [f_equal; lia | apply Hfill].
Qed.

Lemma mask_is_built_by_the_constructor_witness :
  StringColumn.DataSeq [Some "x"; None] ≠ StringColumn.DataOther
  ∧ ∃ c new, StringColumn.__init__ (StringColumn.DataSeq [Some "x"; None]) None None []
               = (Ok c, [] ++ new)
      ∧ masks_built new = 1 ∧ is_Some (_mask c).
Proof.
  split; [discriminate|].
  destruct (mask_is_built_by_the_constructor (StringColumn.DataSeq [Some "x"; None])
              None None [] ltac:(discriminate))
    as (c & new & E & Hpos & _ & _).
  exists c, new. split; [exact E|].
  assert (Hc : (0 < _null_count c)%Z).
  { vm_compute in E. inversion E. reflexivity. }
  destruct (Hpos Hc) as [Hone Hmask]. split; [exact Hone|].
  rewrite Hmask. eauto.
Defined.

(** ** C4: [cat] with no other operand *)

Lemma join_unset (d : nvs.nvstrings) (sep : option string) :
  nvs.join d sep None = [Some (String.concat (default "" sep) (omap id d))].
Proof.
  unfold nvs.join. do 3 f_equal.
  induction d as [|[s|] d IH]; cbn; [reflexivity| |]; now rewrite IH.
Qed.

Section concatenation.
Context `{Engine}.

(** C4. [cat(others=None, sep, na_rep)] succeeds, and it returns a
    scalar (the row [out[0]]) exactly when the storage's output has
    one row, and a series over that output otherwise. When the
    storage's [cat] without operand is the join of the spec and
    [na_rep] is unset, the scalar is the non-null rows joined with
    [sep], null rows left out. *)
Theorem cat_without_others_returns_the_joined_scalar (self : StringMethods)
    (sep na_rep : option string) (st : dev) :
  let rows := _data (_parent self) in
  let out := nvs_cat rows None sep na_rep in
  ∃ r st', StringMethods.cat self StringMethods.OthersNone sep na_rep st = (Ok r, st')
    ∧ (nvs.size out = 1 ↔ ∃ s, r = StringMethods.CatScalar s)
    ∧ (nvs.size out = 1 → r = StringMethods.CatScalar (mjoin (out !! 0)))
    ∧ (nvs.size out ≠ 1 →
         ∃ c, r = StringMethods.CatSeries
                    (series.of_string_column c (_index self) (_name (_parent self)))
              ∧ _data c = out)
    ∧ (out = nvs.join rows sep na_rep → na_rep = None →
         r = StringMethods.CatScalar
               (Some (String.concat (default "" sep) (omap id rows)))).
Proof.
  cbv zeta. unfold StringMethods.cat, StringColumn.__init__, StringColumn.__len__,
    StringColumn.data, StringMethods.parent_name.
  run.
  set (out := nvs_cat (_data (_parent self)) None sep na_rep).
  destruct (0 <? nvs.null_count out)%Z; run;
    (case_decide as Hone; [destruct Hone as [Hone _]|assert (nvs.size out ≠ 1) by tauto];
     run;
     eexists; eexists; (split; [reflexivity|]);
     (split; [split; [intros; first [contradiction | eauto]
                     | intros [s Hs]; first [assumption | discriminate]]|]);
     (split; [intros; first [reflexivity | contradiction]|]);
     (split; [intros; first [contradiction | eexists; split; reflexivity]|]);
     intros Hjoin ->; rewrite join_unset in Hjoin; rewrite Hjoin in *;
     first [reflexivity | cbn in *; congruence]).
Qed.

End concatenation.

(** The example of the spec: [["a", None, "c"]] joined with ",". *)
Lemma cat_without_others_returns_the_joined_scalar_witness :
  ∃ st', @StringMethods.cat plain_engine {| _parent := column_a_null_c; _index := None |}
           StringMethods.OthersNone (Some ",") None []
         = (Ok (StringMethods.CatScalar (Some "a,c")), st').
Proof.
  destruct (@cat_without_others_returns_the_joined_scalar plain_engine
              {| _parent := column_a_null_c; _index := None |} (Some ",") None [])
    as (r & st' & E & _ & _ & _ & Hjoin).
  exists st'. rewrite E. rewrite (Hjoin eq_refl eq_refl). reflexivity.
Defined.

(** ** C5: [fillna] *)

Lemma null_count_cons (r : option string) (d : nvs.nvstrings) :
  nvs.null_count (r :: d)
  = ((if r is None then 1 else 0) + nvs.null_count d)%Z.
Proof.
  unfold nvs.null_count. rewrite filter_cons.
  destruct r as [s|]; case_decide; try congruence; cbn [length]; lia.
Qed.

Lemma null_count_nonneg (d : nvs.nvstrings) : (0 ≤ nvs.null_count d)%Z.
Proof. unfold nvs.null_count. lia. Qed.

Lemma null_count_fill_scalar (d : nvs.nvstrings) (s : string) :
  nvs.null_count (nvs.fillna d (inl s)) = 0%Z.
Proof.
  induction d as [|r d IH]; [reflexivity|].
  cbn in *. rewrite null_count_cons. exact IH.
Qed.

Lemma lookup_fill_rows (d f : nvs.nvstrings) (i : nat) :
  nvs.fill_rows d f !! i
  = (λ r, match r with Some x => Some x | None => mjoin (f !! i) end) <$> d !! i.
Proof.
  revert f i. induction d as [|r d IH]; intros f i; [reflexivity|].
  destruct i as [|i]; cbn.
  - now rewrite head_lookup.
  - rewrite IH. now rewrite lookup_tail.
Qed.

Lemma null_count_fill_rows (d f : nvs.nvstrings) :
  nvs.null_count (nvs.fill_rows d f) = 0%Z
  ↔ ∀ i, d !! i = Some None → is_Some (mjoin (f !! i)).
Proof.
  revert f. induction d as [|r d IH]; intros f; cbn.
  - split; [intros _ i Hi; discriminate|reflexivity].
  - rewrite null_count_cons. pose proof (null_count_nonneg (nvs.fill_rows d (tail f))).
    split.
    + intros Hz i Hi. destruct i as [|i]; cbn in Hi.
      * inversion Hi; subst r. rewrite <- head_lookup.
        destruct (mjoin (head f)); [eauto | lia].
      * rewrite <- lookup_tail. apply IH; [|exact Hi].
        destruct (match r with Some x => Some x | None => mjoin (head f) end); lia.
    + intros Hall.
      assert (Hd : nvs.null_count (nvs.fill_rows d (tail f)) = 0%Z).
      { apply IH. intros i Hi. rewrite lookup_tail. apply (Hall (S i)). exact Hi. }
      rewrite Hd. destruct r as [x|]; [reflexivity|].
      destruct (Hall 0 eq_refl) as [y Hy]. rewrite head_lookup, Hy. reflexivity.
Qed.

(** C5, as stated, fails twice on [["x", None]]. Filled from the
    series [["a", None]], a string series as long as the column, the
    call succeeds and the null row stays null, so the result has one
    null. Filled from the string column [["a", "b"]] itself, not
    wrapped in a series, the call raises [TypeError]: the first test
    lets through a [str] or a series only. *)
Lemma fillna_leaves_a_null_counterexample :
  (∃ r st', StringColumn.fillna column_x_null
              (StringColumn.FillSeries
                 (series.of_string_column (built [Some "a"; None]) None None))
              false []
            = (Ok (column_x_null, Some r), st')
     ∧ _data r = [Some "x"; None]
     ∧ _null_count r = 1%Z)
  ∧ StringColumn.fillna column_x_null
      (StringColumn.FillColumn (StrCol (built [Some "a"; Some "b"]))) false []
    = (Raise (TypeError "fill_value must be a string or a string series"), []).
Proof. split; [eexists; eexists; repeat split | reflexivity]. Qed.

(** C5, amended. [fillna(value)] raises [TypeError] when [value] is
    neither a string nor a series over a string column (a scalar that
    is not a [str], a series over another column, or a column that is
    not wrapped in a series, a string column included), and
    [ValueError] when it is a string series shorter than the column,
    both before anything runs on the device. Otherwise it succeeds
    with a new column in which every non-null row is kept and every
    null row holds the scalar, or the row of the series at the same
    position. With a scalar the result has no null and no mask; with a
    series a row stays null where the series is null too, and the
    result has no null exactly when the series is non-null at every
    position where the column is null. *)
Theorem fillna_replaces_each_null_row (self : StringColumn)
    (fill_value : StringColumn.fill_arg) (inplace : bool) (st : dev) :
  let n := StringColumn.__len__ self in
  let r := StringColumn.fillna self fill_value inplace st in
  let filled (rows : nvs.nvstrings) (P : StringColumn → Prop) :=
    ∃ c st', r = (Ok (StringColumn._mimic_inplace self c inplace), st')
             ∧ _data c = rows ∧ _null_count c = nvs.null_count rows ∧ P c in
  match fill_value with
  | StringColumn.FillValue (VStr s) =>
      filled ((λ row, Some (default s row)) <$> _data self)
             (λ c, _null_count c = 0%Z ∧ _mask c = None)
  | StringColumn.FillSeries {| _column := StrCol f |} =>
      if decide (nvs.size (_data f) < n) then
        r = (Raise (ValueError
               "fill value series must be of same or greater length than the series to be filled"),
             st)
      else
        ∃ rows, (∀ i, rows !! i
                   = (λ row, match row with
                             | Some x => Some x
                             | None => mjoin (_data f !! i)
                             end) <$> _data self !! i)
          ∧ filled rows
              (λ c, _null_count c = 0%Z
                    ↔ ∀ i, _data self !! i = Some None → is_Some (mjoin (_data f !! i)))
  | _ => r = (Raise (TypeError "fill_value must be a string or a string series"), st)
  end.
Proof.
  cbv zeta. unfold StringColumn.fillna.
  destruct fill_value as [[| | | | |s]|[[f|f] idx nm]|c]; try reflexivity.
  - (* a scalar string *)
    unfold StringColumn.replace_mask, StringColumn.__init__. run.
    repeat (rewrite null_count_fill_scalar; run).
    eexists; eexists. repeat split.
    symmetry. apply (null_count_fill_scalar (_data self) s).
  - (* a string series *)
    unfold StringColumn.__len__. case_decide as Hlen; [reflexivity|].
    unfold StringColumn.replace_mask, StringColumn.__init__. run.
    unfold nvs.fillna.
    set (rows := nvs.fill_rows (_data self) (take (nvs.size (_data self)) (_data f))).
    assert (Hrow : ∀ i, rows !! i
                     = (λ row, match row with
                               | Some x => Some x
                               | None => mjoin (_data f !! i)
                               end) <$> _data self !! i).
    { intros i. subst rows. rewrite lookup_fill_rows.
      destruct (_data self !! i) as [row|] eqn:Ei; [|reflexivity].
      apply lookup_lt_Some in Ei. unfold nvs.size.
      now rewrite lookup_take_lt. }
    assert (Hzero : nvs.null_count rows = 0%Z
                    ↔ ∀ i, _data self !! i = Some None → is_Some (mjoin (_data f !! i))).
    { subst rows. rewrite null_count_fill_rows. unfold nvs.size.
      split; intros Hall i Hi; specialize (Hall i Hi);
        apply lookup_lt_Some in Hi; now rewrite lookup_take_lt in *. }
    exists rows. split; [exact Hrow|].
    destruct (0 <? nvs.null_count rows)%Z eqn:E; run; rewrite ?E; run;
      eexists; eexists; repeat split; cbn [_null_count]; apply Hzero.
Qed.

(** The example of the spec, [["x", None]] filled with "y"; an
    integer as the fill value; and a fill series that is too short. *)
Lemma fillna_replaces_each_null_row_witness :
  (∃ c st', StringColumn.fillna column_x_null (StringColumn.FillValue (VStr "y")) false []
            = (Ok (column_x_null, Some c), st')
     ∧ _data c = [Some "x"; Some "y"] ∧ _null_count c = 0%Z)
  ∧ StringColumn.fillna column_x_null (StringColumn.FillValue (VInt 1)) false []
    = (Raise (TypeError "fill_value must be a string or a string series"), [])
  ∧ StringColumn.fillna column_a_null_c
      (StringColumn.FillSeries (series.of_string_column column_x_null None None)) false []
    = (Raise (ValueError
         "fill value series must be of same or greater length than the series to be filled"),
       []).
Proof.
  split; [|split].
  - destruct (fillna_replaces_each_null_row column_x_null (StringColumn.FillValue (VStr "y"))
                false []) as (c & st' & E & Hrows & _ & Hz & _).
    exists c, st'. split; [exact E|]. split; [exact Hrows | exact Hz].
  - exact (fillna_replaces_each_null_row column_x_null
             (StringColumn.FillValue (VInt 1)) false []).
  - exact (fillna_replaces_each_null_row column_a_null_c
             (StringColumn.FillSeries (series.of_string_column column_x_null None None))
             false []).
Defined.

(** ** The storage survives its export: [from_offsets] after [to_offsets] *)

Lemma ascii_of_byte_of_ascii (a : ascii) : nvs.ascii_of_byte (nvs.byte_of_ascii a) = a.
Proof. destruct a as [[] [] [] [] [] [] [] []]; reflexivity. Qed.

Lemma decode_row_bytes (s : string) :
  string_of_list_ascii (nvs.ascii_of_byte <$> nvs.row_bytes (Some s)) = s.
Proof.
  cbn. induction s as [|a s IH]; [reflexivity|].
  cbn. now rewrite ascii_of_byte_of_ascii, IH.
Qed.

Lemma testbit_pack8 (b0 b1 b2 b3 b4 b5 b6 b7 : bool) (k : nat) :
  k < 8 →
  Z.testbit (to_int8 (nvs.pack_bits [b0; b1; b2; b3; b4; b5; b6; b7])) (Z.of_nat k)
  = nth k [b0; b1; b2; b3; b4; b5; b6; b7] false.
Proof.
  intros Hk. do 8 (destruct k as [|k]; [now destruct b0, b1, b2, b3, b4, b5, b6, b7|]).
  lia.
Qed.

Lemma testbit_mask_word (d : nvs.nvstrings) (j k : nat) :
  k < 8 → Z.testbit (nvs.mask_word d j) (Z.of_nat k) = nvs.valid_bit d (8 * j + k).
Proof.
  intros Hk. unfold nvs.mask_word. cbn [seq fmap list_fmap].
  rewrite testbit_pack8 by exact Hk.
  do 8 (destruct k as [|k]; [reflexivity|]). lia.
Qed.

Lemma testbit_bitmask (d : nvs.nvstrings) (i : nat) :
  i < nvs.size d →
  Z.testbit (nvs.bitmask d !!! (i / 8)) (Z.of_nat (i `mod` 8)) = nvs.valid_bit d i.
Proof.
  intros Hi.
  pose proof (Nat.div_mod_eq i 8) as Hdiv.
  pose proof (Nat.div_mod_eq (nvs.size d) 8) as Hdivn.
  pose proof (Nat.mod_upper_bound i 8 ltac:(lia)) as Hmod.
  pose proof (Nat.mod_upper_bound (nvs.size d) 8 ltac:(lia)) as Hmodn.
  assert (Hword : nvs.bitmask d !!! (i / 8) = nvs.mask_word d (i / 8)).
  { apply list_lookup_total_correct. unfold nvs.bitmask.
    rewrite list_lookup_fmap, lookup_seq_lt; [reflexivity|].
    unfold utils.calc_chunk_size, utils.mask_bitsize. case_decide; lia. }
  rewrite Hword, testbit_mask_word by exact Hmod.
  f_equal. lia.
Qed.

Lemma byte_count_app (a b : nvs.nvstrings) :
  nvs.byte_count (a ++ b) = nvs.byte_count a + nvs.byte_count b.
Proof.
  unfold nvs.byte_count. induction a as [|r a IH]; cbn; [reflexivity|].
  rewrite IH. lia.
Qed.

Lemma byte_count_take_le (d : nvs.nvstrings) (i : nat) :
  nvs.byte_count (take i d) ≤ nvs.byte_count d.
Proof.
  rewrite <- (take_drop i d) at 2. rewrite byte_count_app. lia.
Qed.

Lemma lookup_offsets_from (acc : Z) (d : nvs.nvstrings) (i : nat) :
  i ≤ nvs.size d →
  nvs.offsets_from acc d !! i = Some (acc + Z.of_nat (nvs.byte_count (take i d)))%Z.
Proof.
  unfold nvs.byte_count, nvs.size.
  revert acc i. induction d as [|r d IH]; intros acc i Hi; cbn in Hi.
  - replace i with 0 by lia. cbn. f_equal. lia.
  - destruct i as [|i]; cbn.
    + f_equal. lia.
    + rewrite IH by lia. f_equal. lia.
Qed.

Lemma to_int32_small (z : Z) : (0 ≤ z < 2 ^ 31)%Z → to_int32 z = z.
Proof.
  intros Hz. unfold to_int32. rewrite Z.mod_small by lia.
  destruct (z <? 2 ^ 31)%Z eqn:E; [reflexivity | lia].
Qed.

(** Offset [i] as an element of the int32 buffer. *)
Lemma lookup_int32_offsets (d : nvs.nvstrings) (i : nat) :
  (Z.of_nat (nvs.byte_count d) < 2 ^ 31)%Z → i ≤ nvs.size d →
  (to_int32 <$> nvs.offsets d) !!! i = Z.of_nat (nvs.byte_count (take i d)).
Proof.
  intros Hfit Hi. apply list_lookup_total_correct.
  unfold nvs.offsets. rewrite list_lookup_fmap, lookup_offsets_from by exact Hi.
  cbn. f_equal. pose proof (byte_count_take_le d i).
  rewrite to_int32_small; lia.
Qed.

(** The bytes of row [i] sit in [chars] between its two offsets. *)
Lemma chars_between_offsets (d : nvs.nvstrings) (i : nat) (r : option string) :
  d !! i = Some r →
  take (nvs.byte_count (take (S i) d) - nvs.byte_count (take i d))
       (drop (nvs.byte_count (take i d)) (nvs.chars d))
  = nvs.row_bytes r.
Proof.
  intros Hr.
  assert (Hc : nvs.chars d
               = nvs.chars (take i d) ++ nvs.row_bytes r ++ nvs.chars (drop (S i) d)).
  { rewrite <- (take_drop_middle d i r Hr) at 1.
    unfold nvs.chars. now rewrite bind_app, bind_cons. }
  rewrite Hc, (take_S_r d i r Hr), byte_count_app. cbn [nvs.byte_count foldr].
  rewrite <- (length_chars (take i d)), drop_app_length.
  replace (length (nvs.chars (take i d)) + (nvs.row_len r + 0)
           - length (nvs.chars (take i d))) with (length (nvs.row_bytes r))
    by (rewrite length_row_bytes; lia).
  apply take_app_length.
Qed.

(** Round trip of the storage model: for a storage whose chars fit
    int32 offsets, [from_offsets] applied to the three buffers of
    [to_offsets] gives back every row, whatever null count it is
    told. *)
Lemma from_offsets_to_offsets (d : nvs.nvstrings) (ncount : Z) :
  (Z.of_nat (nvs.byte_count d) < 2 ^ 31)%Z →
  nvs.from_offsets (nvs.chars d) (to_int32 <$> nvs.offsets d) (nvs.size d)
    (nvs.bitmask d) ncount = d.
Proof.
  intros Hfit. apply list_eq. intros i. unfold nvs.from_offsets.
  rewrite list_lookup_fmap.
  destruct (d !! i) as [r|] eqn:Hr.
  - pose proof (lookup_lt_Some _ _ _ Hr) as Hi. fold (nvs.size d) in Hi.
    rewrite lookup_seq_lt by exact Hi.
    cbn [fmap option_fmap option_map Nat.add]. f_equal.
    unfold nvs.from_offsets_row.
    rewrite testbit_bitmask by exact Hi.
    unfold nvs.valid_bit. rewrite Hr.
    rewrite !lookup_int32_offsets by (try exact Hfit; lia).
    rewrite !Nat2Z.id.
    destruct r as [s|]; [|reflexivity].
    rewrite (chars_between_offsets d i (Some s) Hr). now rewrite decode_row_bytes.
  - apply lookup_ge_None in Hr. rewrite lookup_ge_None_2; [reflexivity|].
    now rewrite length_seq.
Qed.

(** ** C1: [serialize] and [deserialize] *)

Section wire_format.
Context `{Numpy}.

(** [deserialize] on three frames that are arrays already: nothing is
    reinterpreted or uploaded, and the storage is rebuilt from the
    frames in the order validity, chars, offsets. *)
Lemma deserialize_of_arrays (header : gmap string hval) (nbuf sbuf obuf : ndarray)
    (scount ncount : Z) (st : dev) :
  header !! "nvstrings" = Some (HInt scount) →
  header !! "null_count" = Some (HInt ncount) →
  StringColumn.deserialize header [FArray nbuf; FArray sbuf; FArray obuf] st
  = (Ok (nvs.from_offsets (a_items sbuf) (a_items obuf) (Z.to_nat scount)
           (a_items nbuf) ncount),
     st ++ [EvCall "from_offsets"]).
Proof.
  intros Hs Hn. unfold StringColumn.deserialize, getitem. run.
  rewrite Hs. run. rewrite Hn. reflexivity.
Qed.

(** C1. For a column within the data model's invariants (null count
    mirrored from the storage, chars within 32-bit offsets),
    [serialize] returns a header with the null count, the row count,
    three sub-headers (each with the dtype tag and shape of its frame)
    and a frame count of 3, together with exactly three frames, in the
    order validity bitmap, chars, offsets. [deserialize] applied to
    that header and those frames succeeds and returns a storage with
    the rows of the original: the same row count, the same null count,
    and the same string or null at every position; the column that
    the constructor wraps around it has the row count, the null count
    and the rows of the original column. *)
Theorem serialize_then_deserialize_rebuilds_the_rows (self : StringColumn) (st : dev) :
  wf_column self →
  ∃ header nbuf sbuf obuf st1,
    StringColumn.serialize self st
      = (Ok (header, [FArray nbuf; FArray sbuf; FArray obuf]), st1)
    ∧ header !! "null_count" = Some (HInt (_null_count self))
    ∧ header !! "nvstrings" = Some (HInt (Z.of_nat (StringColumn.__len__ self)))
    ∧ header !! "frame_count" = Some (HInt 3)
    ∧ (∃ h0 h1 h2, header !! "subheaders" = Some (HSubs [h0; h1; h2])
         ∧ h0 !! "dtype" = Some (SStr "|i1")
         ∧ h0 !! "shape" = Some (SShape [length (a_items nbuf)])
         ∧ h1 !! "dtype" = Some (SStr "|i1")
         ∧ h1 !! "shape" = Some (SShape [length (a_items sbuf)])
         ∧ h2 !! "dtype" = Some (SStr "<i4")
         ∧ h2 !! "shape" = Some (SShape [length (a_items obuf)]))
    ∧ a_items nbuf = nvs.bitmask (_data self)
    ∧ a_items sbuf = nvs.chars (_data self)
    ∧ a_items obuf = to_int32 <$> nvs.offsets (_data self)
    ∧ ∀ st2, ∃ d st3,
        StringColumn.deserialize header [FArray nbuf; FArray sbuf; FArray obuf] st2
          = (Ok d, st3)
        ∧ nvs.size d = StringColumn.__len__ self
        ∧ nvs.null_count d = _null_count self
        ∧ (∀ i, d !! i = _data self !! i)
        ∧ ∃ c st4, StringColumn.__init__ (StringColumn.DataNv d) None None st3
                     = (Ok c, st4)
            ∧ StringColumn.__len__ c = StringColumn.__len__ self
            ∧ _null_count c = _null_count self
            ∧ _data c = _data self.
Proof.
  intros [Hnull Hfit].
  unfold StringColumn.serialize, StringColumn.data, StringColumn.__len__. run.
  unfold nvs.to_offsets. run.
  eexists; eexists; eexists; eexists; eexists.
  split; [reflexivity|].
  assert (Hn : ∀ p, a_items (store {| a_place := p; a_dtype := Int8;
                a_items := replicate (utils.calc_chunk_size (nvs.size (_data self))
                                        utils.mask_bitsize) 0%Z |}
              (nvs.bitmask (_data self))) = nvs.bitmask (_data self)).
  { intros p. apply store_exact. cbn [a_items].
    now rewrite length_replicate, length_bitmask. }
  assert (Hs : ∀ p, a_items (store {| a_place := p; a_dtype := Int8;
                a_items := replicate (nvs.byte_count (_data self)) 0%Z |}
              (nvs.chars (_data self))) = nvs.chars (_data self)).
  { intros p. apply store_exact. cbn [a_items].
    now rewrite length_replicate, length_chars. }
  assert (Ho : ∀ p, a_items (store {| a_place := p; a_dtype := Int32;
                a_items := replicate (nvs.size (_data self) + 1) 0%Z |}
              (to_int32 <$> nvs.offsets (_data self)))
            = to_int32 <$> nvs.offsets (_data self)).
  { intros p. apply store_exact. cbn [a_items]. unfold nvs.offsets.
    rewrite length_replicate, length_fmap, length_offsets_from. lia. }
  split; [by simplify_map_eq|].
  split; [by simplify_map_eq|].
  split; [by simplify_map_eq|].
  split.
  { eexists; eexists; eexists. split; [by simplify_map_eq|].
    unfold cuda_array_interface. repeat split; by simplify_map_eq. }
  split; [apply Hn|]. split; [apply Hs|]. split; [apply Ho|].
  intros st2. eexists; eexists. split.
  - apply deserialize_of_arrays; by simplify_map_eq.
  - rewrite Hn, Hs, Ho, Nat2Z.id, from_offsets_to_offsets by exact Hfit.
    split; [reflexivity|]. split; [now rewrite Hnull|]. split; [reflexivity|].
    unfold StringColumn.__init__. run.
    destruct (0 <? nvs.null_count (_data self))%Z; run;
      eexists; eexists; (split; [reflexivity|]); cbn; auto.
Qed.

End wire_format.

(** The column [["a", None, "c"]] through the wire and back. *)
Lemma serialize_then_deserialize_rebuilds_the_rows_witness :
  wf_column column_a_null_c
  ∧ ∃ header frames st1 st2,
      StringColumn.serialize column_a_null_c [] = (Ok (header, frames), st1)
      ∧ length frames = 3
      ∧ @StringColumn.deserialize no_host_buffers header frames st1
        = (Ok [Some "a"; None; Some "c"], st2).
Proof.
  assert (Hwf : wf_column column_a_null_c).
  { split; [reflexivity | vm_compute; reflexivity]. }
  split; [exact Hwf|].
  destruct (@serialize_then_deserialize_rebuilds_the_rows no_host_buffers
              column_a_null_c [] Hwf)
    as (header & nbuf & sbuf & obuf & st1 & Eser & _ & _ & _ & _ & _ & _ & _ & Hde).
  destruct (Hde st1) as (d & st3 & Ede & _ & _ & Hrows & _).
  exists header, [FArray nbuf; FArray sbuf; FArray obuf], st1, st3.
  split; [exact Eser|]. split; [reflexivity|].
  rewrite Ede. do 2 f_equal. apply list_eq. exact Hrows.
Defined.

(** * Further properties of the code *)

(** ** The constructor *)

(** What the constructor returns for a storage object or a host
    sequence, whatever null count it is given. *)
Lemma init_result (data : StringColumn.data_arg) (nc : option Z) (name : option string)
    (st : dev) :
  data ≠ StringColumn.DataOther →
  ∃ c new, StringColumn.__init__ data nc name st = (Ok c, st ++ new)
    ∧ _data c = data_rows data
    ∧ _name c = name
    ∧ _null_count c = default (nvs.null_count (data_rows data)) nc
    ∧ _nvcategory c = None ∧ _indices c = None
    ∧ ((0 < _null_count c)%Z →
         ∃ p, length st ≤ p
           ∧ _mask c = Some {| mem := {| a_place := OnDevice p; a_dtype := Int8;
                                         a_items := nvs.bitmask (_data c) |} |})
    ∧ (¬ (0 < _null_count c)%Z → _mask c = None)
    ∧ (nc = None → calls "null_count" new = 1)
    ∧ (∀ n, nc = Some n → calls "null_count" new = 0)
    ∧ allocations new = (if (0 <? _null_count c)%Z then 1 else 0).
Proof.
  intros Hdata. unfold StringColumn.__init__.
  assert (Hfill : ∀ d p, a_items (store {| a_place := p; a_dtype := Int8;
                      a_items := replicate (utils.calc_chunk_size (nvs.size d)
                                              utils.mask_bitsize) 0%Z |}
                    (nvs.set_null_bitmask d)) = nvs.bitmask d).
  { intros d p. apply store_exact. cbn [a_items].
    rewrite length_replicate. apply length_bitmask. }
  destruct data as [d|l|]; [| |contradiction];
    destruct nc as [n|]; run.
  all: match goal with
       | |- context [(0 <? ?n)%Z] => destruct (0 <? n)%Z eqn:E; run
       end.
  all: first [ eexists; eexists; split; [rewrite <- ?app_assoc; reflexivity|]
             | eexists; exists []; split; [rewrite app_nil_r; reflexivity|] ];
    cbn [_null_count _mask _data _name _nvcategory _indices data_rows default];
    rewrite ?E;
    repeat (split; [first [reflexivity | intros; try lia; try discriminate]|]);
    try (intros; first [reflexivity | lia | discriminate]).
  all: eexists; (split; [|unfold store; cbn [a_place a_dtype]; do 3 f_equal; apply Hfill]);
    rewrite ?length_app; cbn [length]; lia.
Qed.

Lemma null_count_le_size (d : nvs.nvstrings) :
  (nvs.null_count d ≤ Z.of_nat (nvs.size d))%Z.
Proof.
  induction d as [|r d IH]; [reflexivity|].
  rewrite null_count_cons. unfold nvs.size in *. cbn [length].
  destruct r; lia.
Qed.

Lemma null_count_zero_iff (d : nvs.nvstrings) :
  nvs.null_count d = 0%Z ↔ ∀ i, d !! i ≠ Some None.
Proof.
  induction d as [|r d IH].
  - split; [intros _ i; discriminate | reflexivity].
  - rewrite null_count_cons. pose proof (null_count_nonneg d). split.
    + intros Hz [|i]; cbn.
      * destruct r; [discriminate | lia].
      * apply IH. destruct r; lia.
    + intros Hall. assert (nvs.null_count d = 0%Z) as ->.
      { apply IH. intros i. apply (Hall (S i)). }
      destruct r; [reflexivity|]. now specialize (Hall 0).
Qed.

Lemma null_count_all_iff (d : nvs.nvstrings) :
  nvs.null_count d = Z.of_nat (nvs.size d) ↔ ∀ row, row ∈ d → row = None.
Proof.
  induction d as [|r d IH].
  - split; [intros _ row Hin; inversion Hin | reflexivity].
  - rewrite null_count_cons. pose proof (null_count_le_size d).
    unfold nvs.size in *. cbn [length]. split.
    + intros Heq row Hin. apply elem_of_cons in Hin as [->|Hin].
      * destruct r; [lia | reflexivity].
      * apply IH; [|exact Hin]. destruct r; lia.
    + intros Hall. assert (nvs.null_count d = Z.of_nat (length d)) as ->.
      { apply IH. intros row Hin. apply Hall. now right. }
      rewrite (Hall r) by now left. lia.
Qed.

(** X1. A column built by the constructor from a storage object or a
    host sequence, with the null count left to it, holds those rows;
    its null count is the storage's, between 0 and the row count; it
    has a mask exactly when some row is null; and the mask is an int8
    buffer of [ceil(len / 8)] words in which bit [i mod 8] of word
    [i / 8] is set exactly when row [i] is not null. *)
Theorem constructor_counts_the_nulls_and_masks_them (data : StringColumn.data_arg)
    (name : option string) (st : dev) :
  data ≠ StringColumn.DataOther →
  ∃ c st', StringColumn.__init__ data None name st = (Ok c, st')
    ∧ _data c = data_rows data
    ∧ _null_count c = nvs.null_count (_data c)
    ∧ (0 ≤ _null_count c ≤ Z.of_nat (StringColumn.__len__ c))%Z
    ∧ (_mask c = None ↔ ∀ i, _data c !! i ≠ Some None)
    ∧ ∀ b, _mask c = Some b →
        a_dtype (mem b) = Int8
        ∧ length (a_items (mem b))
          = utils.calc_chunk_size (StringColumn.__len__ c) utils.mask_bitsize
        ∧ ∀ i, i < StringColumn.__len__ c →
            (Z.testbit (a_items (mem b) !!! (i / 8)) (Z.of_nat (i `mod` 8)) = true
             ↔ ∃ s, _data c !! i = Some (Some s)).
Proof.
  intros Hdata.
  destruct (init_result data None name st Hdata)
    as (c & new & E & Hrows & _ & Hnc & _ & _ & Hpos & Hzero & _).
  cbn [default] in Hnc. rewrite <- Hrows in Hnc.
  exists c, (st ++ new). split; [exact E|]. split; [exact Hrows|].
  split; [exact Hnc|].
  pose proof (null_count_nonneg (_data c)). pose proof (null_count_le_size (_data c)).
  split; [unfold StringColumn.__len__; lia|].
  split.
  - rewrite <- null_count_zero_iff, <- Hnc. split.
    + intros Hm. destruct (decide (0 < _null_count c)%Z) as [Hp|Hp]; [|lia].
      destruct (Hpos Hp) as (p & _ & Hsome). congruence.
    + intros Hz. apply Hzero. lia.
  - intros b Hb.
    destruct (decide (0 < _null_count c)%Z) as [Hp|Hp];
      [|rewrite (Hzero Hp) in Hb; discriminate].
    destruct (Hpos Hp) as (p & _ & Hsome). rewrite Hsome in Hb.
    inversion Hb; subst b; clear Hb. cbn [mem a_dtype a_items].
    split; [reflexivity|]. split; [apply length_bitmask|].
    intros i Hi. rewrite testbit_bitmask by exact Hi. unfold nvs.valid_bit.
    destruct (_data c !! i) as [[s|]|].
    + split; [eauto | reflexivity].
    + split; [discriminate | intros [s Hs]; discriminate].
    + split; [discriminate | intros [s Hs]; discriminate].
Qed.

Lemma constructor_counts_the_nulls_and_masks_them_witness :
  StringColumn.DataSeq [Some "a"; None; Some "c"] ≠ StringColumn.DataOther
  ∧ ∃ c st', StringColumn.__init__ (StringColumn.DataSeq [Some "a"; None; Some "c"])
               None None [] = (Ok c, st')
      ∧ _null_count c = 1%Z
      ∧ ∃ b, _mask c = Some b ∧ a_items (mem b) = [5%Z].
Proof.
  split; [discriminate|].
  destruct (constructor_counts_the_nulls_and_masks_them
              (StringColumn.DataSeq [Some "a"; None; Some "c"]) None []
              ltac:(discriminate))
    as (c & st' & E & Hrows & Hnc & _).
  exists c, st'. split; [exact E|].
  vm_compute in E. inversion E; subst c. split; [reflexivity|].
  eexists. split; reflexivity.
Defined.

(** X2. A null count given to the constructor is taken as it is: the
    storage is not asked for its own. Given a storage object and a
    null count that is not positive, the constructor runs nothing on
    the device and the column has no mask, even where the storage
    holds nulls; given a positive one it builds a mask. *)
Theorem constructor_trusts_the_null_count_given (d : nvs.nvstrings) (n : Z)
    (name : option string) (st : dev) :
  ∃ c new, StringColumn.__init__ (StringColumn.DataNv d) (Some n) name st
             = (Ok c, st ++ new)
    ∧ _data c = d ∧ _null_count c = n
    ∧ calls "null_count" new = 0
    ∧ ((n ≤ 0)%Z → new = [] ∧ _mask c = None)
    ∧ ((0 < n)%Z → is_Some (_mask c) ∧ allocations new = 1).
Proof.
  unfold StringColumn.__init__. run.
  destruct (0 <? n)%Z eqn:E; run.
  - eexists; eexists. split; [rewrite <- app_assoc; reflexivity|].
    cbn. repeat split; eauto; lia.
  - eexists; exists []. split; [now rewrite app_nil_r|].
    cbn. repeat split; auto; lia.
Qed.

(** ** Export to the interchange format *)

(** X3. For a column built by the constructor with the null count
    left to it, [to_arrow] succeeds, and it gives a null-typed array
    exactly when every row is null (the empty column included) and a
    string array otherwise. No device buffer is allocated by the
    export. *)
Theorem to_arrow_is_a_null_array_iff_all_rows_are_null (data : StringColumn.data_arg)
    (name : option string) (st : dev) :
  data ≠ StringColumn.DataOther →
  ∃ c st1 out new,
    StringColumn.__init__ data None name st = (Ok c, st1)
    ∧ StringColumn.to_arrow c st1 = (Ok out, st1 ++ new)
    ∧ allocations new = 0
    ∧ ((∀ row, row ∈ data_rows data → row = None)
       → out = StringColumn.NullArray (length (data_rows data))
                 [StringColumn.py_buffer_empty] (Z.of_nat (length (data_rows data))))
    ∧ (¬ (∀ row, row ∈ data_rows data → row = None)
       → ∃ o s n, out = StringColumn.StringArray (length (data_rows data)) o s n
                          (nvs.null_count (data_rows data))).
Proof.
  intros Hdata.
  destruct (init_result data None name st Hdata)
    as (c & new & E & Hrows & _ & Hnc & _).
  cbn [default] in Hnc. rewrite <- Hrows in *.
  pose proof (null_count_all_iff (_data c)) as Hiff.
  rewrite <- Hnc in Hiff. unfold nvs.size in Hiff.
  exists c, (st ++ new).
  unfold StringColumn.to_arrow, StringColumn.null_count, StringColumn.__len__. run.
  unfold nvs.to_offsets. run. unfold nvs.size.
  case_decide as Hall; run.
  - eexists; eexists. split; [exact E|]. split; [rewrite <- app_assoc; reflexivity|].
    split; [reflexivity|]. split; [intros _; now rewrite Hall|].
    intros Hnot. exfalso. apply Hnot, Hiff, Hall.
  - eexists; eexists. split; [exact E|]. split; [rewrite <- !app_assoc; reflexivity|].
    split; [reflexivity|]. split; [intros Hn; exfalso; apply Hall, Hiff, Hn|].
    intros _. eauto.
Qed.

Lemma to_arrow_is_a_null_array_iff_all_rows_are_null_witness :
  StringColumn.DataSeq [None; None] ≠ StringColumn.DataOther
  ∧ ∃ c st1 st2,
      StringColumn.__init__ (StringColumn.DataSeq [None; None]) None None [] = (Ok c, st1)
      ∧ StringColumn.to_arrow c st1
        = (Ok (StringColumn.NullArray 2 [StringColumn.py_buffer_empty] 2), st2).
Proof.
  split; [discriminate|].
  destruct (to_arrow_is_a_null_array_iff_all_rows_are_null
              (StringColumn.DataSeq [None; None]) None [] ltac:(discriminate))
    as (c & st1 & out & new & E & Earrow & _ & Hnull & _).
  exists c, st1, (st1 ++ new). split; [exact E|].
  rewrite Earrow, Hnull; [reflexivity|].
  intros row Hin. cbn in Hin.
  repeat (apply elem_of_cons in Hin as [->|Hin]; [reflexivity|]).
  inversion Hin.
Defined.

(** ** The wire format: [serialize] *)

(** What [serialize] returns, for every column. *)
Lemma serialize_result (self : StringColumn) (st : dev) :
  ∃ header nbuf sbuf obuf,
    StringColumn.serialize self st
      = (Ok (header, [FArray nbuf; FArray sbuf; FArray obuf]),
         st ++ [EvCall "byte_count";
                EvDeviceArray (nvs.byte_count (_data self)) Int8;
                EvDeviceArray (nvs.size (_data self) + 1) Int32;
                EvDeviceArray (utils.calc_chunk_size (nvs.size (_data self))
                                 utils.mask_bitsize) Int8;
                EvCall "to_offsets"])
    ∧ (a_place sbuf = OnDevice (length st + 1)
       ∧ a_place obuf = OnDevice (length st + 2)
       ∧ a_place nbuf = OnDevice (length st + 3))
    ∧ (a_items nbuf = nvs.bitmask (_data self)
       ∧ a_items sbuf = nvs.chars (_data self)
       ∧ a_items obuf = to_int32 <$> nvs.offsets (_data self))
    ∧ dom header = ({["null_count"; "type"; "nvstrings"; "subheaders"; "frame_count"]}
                    : gset string)
    ∧ header !! "null_count" = Some (HInt (_null_count self))
    ∧ header !! "nvstrings" = Some (HInt (Z.of_nat (nvs.size (_data self))))
    ∧ ∃ h0 h1 h2, header !! "subheaders" = Some (HSubs [h0; h1; h2])
        ∧ h0 !! "dtype" = Some (SStr "|i1")
        ∧ h1 !! "dtype" = Some (SStr "|i1")
        ∧ h2 !! "dtype" = Some (SStr "<i4").
Proof.
  unfold StringColumn.serialize, StringColumn.data. run.
  unfold nvs.to_offsets. run.
  eexists; eexists; eexists; eexists.
  split; [rewrite <- !app_assoc; reflexivity|].
  split.
  { cbn [a_place store]. rewrite !length_app. cbn [length].
    repeat split; f_equal; lia. }
  split.
  { repeat split; apply store_exact; cbn [a_items]; rewrite length_replicate.
    - now rewrite length_bitmask.
    - now rewrite length_chars.
    - unfold nvs.offsets. rewrite length_fmap, length_offsets_from. lia. }
  split.
  { rewrite !dom_insert_L, dom_singleton_L. set_solver. }
  split; [by simplify_map_eq|]. split; [by simplify_map_eq|].
  eexists; eexists; eexists. split; [by simplify_map_eq|].
  unfold cuda_array_interface. repeat split; by simplify_map_eq.
Qed.

(** X4. [serialize] succeeds for every column, within or outside the
    invariants of the data model. It runs [byte_count], allocates
    exactly three device buffers and runs [to_offsets] once; the three
    frames are those three buffers, fresh (allocated by this call) and
    pairwise distinct, so no frame is memory the column already holds;
    and the header has exactly the five keys [null_count], [type],
    [nvstrings], [subheaders] and [frame_count]. *)
Theorem serialize_allocates_three_fresh_frames (self : StringColumn) (st : dev) :
  ∃ header nbuf sbuf obuf new,
    StringColumn.serialize self st
      = (Ok (header, [FArray nbuf; FArray sbuf; FArray obuf]), st ++ new)
    ∧ allocations new = 3
    ∧ calls "to_offsets" new = 1
    ∧ (∃ pn ps po, a_place nbuf = OnDevice pn ∧ a_place sbuf = OnDevice ps
         ∧ a_place obuf = OnDevice po
         ∧ length st ≤ pn ∧ length st ≤ ps ∧ length st ≤ po
         ∧ pn ≠ ps ∧ ps ≠ po ∧ pn ≠ po)
    ∧ (length (a_items nbuf)
         = utils.calc_chunk_size (StringColumn.__len__ self) utils.mask_bitsize
       ∧ length (a_items obuf) = StringColumn.__len__ self + 1)
    ∧ dom header = ({["null_count"; "type"; "nvstrings"; "subheaders"; "frame_count"]}
                    : gset string).
Proof.
  destruct (serialize_result self st)
    as (header & nbuf & sbuf & obuf & E & (Hs & Ho & Hn) & (Hin & His & Hio) & Hdom & _).
  exists header, nbuf, sbuf, obuf. eexists. split; [exact E|].
  split; [reflexivity|]. split; [reflexivity|].
  split.
  { eexists; eexists; eexists.
    repeat (split; [first [eassumption | lia]|]). lia. }
  split; [|exact Hdom].
  rewrite Hin, Hio, length_bitmask. unfold nvs.offsets, StringColumn.__len__.
  rewrite length_fmap, length_offsets_from. split; [reflexivity | lia].
Qed.

(** ** The wire format: [deserialize] *)

Section receiving.
Context `{Numpy}.

(** Frames that are arrays already go to [arrays] as they are. *)
Lemma deserialize_frames_arrays (header : gmap string hval) (i : nat)
    (arrs : list ndarray) (dtype : option sval) (acc : list ndarray) (st : dev) :
  StringColumn.deserialize_frames header i (FArray <$> arrs) dtype acc st
  = (Ok (acc ++ arrs), st).
Proof.
  revert i acc. induction arrs as [|a arrs IH]; intros i acc; cbn.
  - now rewrite app_nil_r.
  - run. rewrite IH. now rewrite <- app_assoc.
Qed.


End receiving.


Section receiving_errors.
Context `{Numpy}.

(** X6. [deserialize] reads the header by key: without the key
    [nvstrings] it raises [KeyError] (before it looks at how many
    frames there are), and without [null_count] it raises [KeyError]
    once the three frames are there; nothing has run on the device in
    either case. *)
Theorem deserialize_needs_the_header_keys (header : gmap string hval)
    (arrs : list ndarray) (st : dev) :
  (header !! "nvstrings" = None →
     StringColumn.deserialize header (FArray <$> arrs) st
     = (Raise (KeyError "nvstrings"), st))
  ∧ (is_Some (header !! "nvstrings") → 3 ≤ length arrs →
     header !! "null_count" = None →
     StringColumn.deserialize header (FArray <$> arrs) st
     = (Raise (KeyError "null_count"), st)).
Proof.
  unfold StringColumn.deserialize.
  split; [intros Hs | intros [v Hs] Hlen Hn];
    unfold mbind at 1; unfold M_bind at 1; rewrite deserialize_frames_arrays;
    cbn [app]; unfold getitem; rewrite Hs; run; [reflexivity|].
  destruct arrs as [|a0 [|a1 [|a2 arrs]]]; cbn in Hlen; try lia.
  run. rewrite Hn. reflexivity.
Qed.



(** Three memoryview frames are each reinterpreted with the dtype of
    their own sub-header and uploaded. *)
Lemma deserialize_of_memoryviews (header : gmap string hval)
    (h0 h1 h2 : gmap string sval) (d0 d1 d2 : sval) (r0 r1 r2 : list Z)
    (a0 a1 a2 : ndarray) (scount ncount : Z) (st : dev) :
  header !! "subheaders" = Some (HSubs [h0; h1; h2]) →
  h0 !! "dtype" = Some d0 → h1 !! "dtype" = Some d1 → h2 !! "dtype" = Some d2 →
  np_frombuffer (FMemoryView r0) d0 = Ok a0 →
  np_frombuffer (FMemoryView r1) d1 = Ok a1 →
  np_frombuffer (FMemoryView r2) d2 = Ok a2 →
  header !! "nvstrings" = Some (HInt scount) →
  header !! "null_count" = Some (HInt ncount) →
  StringColumn.deserialize header [FMemoryView r0; FMemoryView r1; FMemoryView r2] st
  = (Ok (nvs.from_offsets (a_items a1) (a_items a2) (Z.to_nat scount) (a_items a0) ncount),
     st ++ [EvToDevice (length (a_items a0)); EvToDevice (length (a_items a1));
            EvToDevice (length (a_items a2)); EvCall "from_offsets"]).
Proof.
  intros Hh H0 H1 H2 E0 E1 E2 Hs Hn.
  unfold StringColumn.deserialize, StringColumn.deserialize_frames,
    StringColumn.deserialize_frame, getitem, index_list.
  rewrite Hh, Hs, Hn. run. rewrite H0, H1, H2. run. rewrite E0. run.
  rewrite E1. run. rewrite E2. run. rewrite <- !app_assoc. reflexivity.
Qed.

(** X8. Round trip over a transport of host buffers. The frames of
    [serialize], sent as memoryviews that the host library
    reinterprets, each with the dtype its sub-header names ("|i1",
    "|i1", "<i4"), into arrays with the elements of the frames, make
    [deserialize] upload three arrays and rebuild the rows of the
    column, for a column within the invariants of the data model. *)
Theorem serialize_then_memoryviews_then_deserialize (self : StringColumn) (st : dev) :
  wf_column self →
  ∃ header nbuf sbuf obuf st1,
    StringColumn.serialize self st
      = (Ok (header, [FArray nbuf; FArray sbuf; FArray obuf]), st1)
    ∧ ∀ rn rs ro an as_ ao st2,
        np_frombuffer (FMemoryView rn) (SStr "|i1") = Ok an →
        np_frombuffer (FMemoryView rs) (SStr "|i1") = Ok as_ →
        np_frombuffer (FMemoryView ro) (SStr "<i4") = Ok ao →
        a_items an = a_items nbuf → a_items as_ = a_items sbuf →
        a_items ao = a_items obuf →
        StringColumn.deserialize header
          [FMemoryView rn; FMemoryView rs; FMemoryView ro] st2
        = (Ok (_data self),
           st2 ++ [EvToDevice (length (a_items nbuf)); EvToDevice (length (a_items sbuf));
                   EvToDevice (length (a_items obuf)); EvCall "from_offsets"]).
Proof.
  intros [_ Hfit].
  destruct (serialize_result self st)
    as (header & nbuf & sbuf & obuf & E & _ & (Hin & His & Hio) & _ & Hnc & Hsc
        & h0 & h1 & h2 & Hsubs & Hd0 & Hd1 & Hd2).
  exists header, nbuf, sbuf, obuf. eexists. split; [exact E|].
  intros rn rs ro an as_ ao st2 En Es Eo Hn Hs Ho.
  rewrite (deserialize_of_memoryviews header h0 h1 h2 _ _ _ rn rs ro an as_ ao
             _ _ st2 Hsubs Hd0 Hd1 Hd2 En Es Eo Hsc Hnc).
  rewrite Hn, Hs, Ho, Hin, His, Hio, Nat2Z.id.
  now rewrite from_offsets_to_offsets by exact Hfit.
Qed.

End receiving_errors.


Lemma serialize_then_memoryviews_then_deserialize_witness :
  wf_column column_a_null_c
  ∧ ∃ header nbuf sbuf obuf st1 st3,
      StringColumn.serialize column_a_null_c []
        = (Ok (header, [FArray nbuf; FArray sbuf; FArray obuf]), st1)
      ∧ @StringColumn.deserialize element_numpy header
          [FMemoryView (a_items nbuf); FMemoryView (a_items sbuf);
           FMemoryView (a_items obuf)] st1
        = (Ok [Some "a"; None; Some "c"], st3).
Proof.
  assert (Hwf : wf_column column_a_null_c).
  { split; [reflexivity | vm_compute; reflexivity]. }
  split; [exact Hwf|].
  destruct (@serialize_then_memoryviews_then_deserialize element_numpy
              column_a_null_c [] Hwf)
    as (header & nbuf & sbuf & obuf & st1 & E & Hde).
  exists header, nbuf, sbuf, obuf, st1. eexists. split; [exact E|].
  exact (Hde (a_items nbuf) (a_items sbuf) (a_items obuf)
           {| a_place := Host; a_dtype := Int8; a_items := a_items nbuf |}
           {| a_place := Host; a_dtype := Int8; a_items := a_items sbuf |}
           {| a_place := Host; a_dtype := Int32; a_items := a_items obuf |}
           st1 eq_refl eq_refl eq_refl eq_refl eq_refl eq_refl).
Defined.

(** ** Binary operators with the operands reflected *)

Section reflected.
Context `{Engine}.


End reflected.


(** ** [cat] with other operands *)

Lemma bind_ok {A B} (m : M A) (k : A → M B) (st st' : dev) (a : A) :
  m st = (Ok a, st') → (m ≫= k) st = k a st'.
Proof. intros E. unfold mbind, M_bind. now rewrite E. Qed.

Lemma bind_raise {A B} (m : M A) (k : A → M B) (st st' : dev) (e : exn) :
  m st = (Raise e, st') → (m ≫= k) st = (Raise e, st').
Proof. intros E. unfold mbind, M_bind. now rewrite E. Qed.

Lemma fmap_ok {A B} (f : A → B) (m : M A) (st st' : dev) (a : A) :
  m st = (Ok a, st') → (f <$> m) st = (Ok (f a), st').
Proof. intros E. unfold fmap, M_fmap. now rewrite E. Qed.

Lemma fmap_raise {A B} (f : A → B) (m : M A) (st st' : dev) (e : exn) :
  m st = (Raise e, st') → (f <$> m) st = (Raise e, st').
Proof. intros E. unfold fmap, M_fmap. now rewrite E. Qed.

Lemma fmap_ok_inv {A B} (f : A → B) (m : M A) (st st' : dev) (b : B) :
  (f <$> m) st = (Ok b, st') → ∃ a, b = f a ∧ m st = (Ok a, st').
Proof.
  unfold fmap, M_fmap. destruct (m st) as [[a|e] st1]; intros E; inversion E; eauto.
Qed.

Lemma calls_app (m : string) (a b : dev) : calls m (a ++ b) = calls m a + calls m b.
Proof. unfold calls. now rewrite List.filter_app, length_app. Qed.

Lemma calls_call (m n : string) :
  calls m [EvCall n] = if bool_decide (n = m) then 1 else 0.
Proof. unfold calls. cbn. now destruct (bool_decide (n = m)). Qed.

Lemma calls_device_array (m : string) (n : nat) (dt : dtype) :
  calls m [EvDeviceArray n dt] = 0.
Proof. reflexivity. Qed.

(** The constructor calls no primitive but [to_device], [null_count]
    and [set_null_bitmask]. *)
Lemma init_calls (data : StringColumn.data_arg) (nc : option Z) (name : option string)
    (st st' : dev) (c : StringColumn) (m : string) :
  StringColumn.__init__ data nc name st = (Ok c, st') →
  m ≠ "to_device" → m ≠ "null_count" → m ≠ "set_null_bitmask" →
  calls m st' = calls m st.
Proof.
  intros E H1 H2 H3. unfold StringColumn.__init__ in E. revert E.
  destruct data as [d|l|]; destruct nc as [n|]; run; try discriminate.
  all: match goal with
       | |- context [(0 <? ?n)%Z] => destruct (0 <? n)%Z; run
       end.
  all: intros E; inversion E; subst; clear E.
  all: rewrite ?calls_app, ?calls_call, ?calls_device_array.
  all: rewrite ?bool_decide_eq_false_2 by congruence; lia.
Qed.

(** [Series(host_sequence).data] always succeeds with the rows given. *)
Lemma host_data_ok (l : list (option string)) (st : dev) :
  ∃ new, series.host_data l st = (Ok l, st ++ new).
Proof.
  unfold series.host_data.
  destruct (init_result (StringColumn.DataSeq l) None None st ltac:(discriminate))
    as (c & new & E & Hrows & _).
  exists new. rewrite (bind_ok _ _ _ _ _ E). unfold StringColumn.data.
  now rewrite Hrows.
Qed.

Section concatenation_with_others.
Context `{Engine}.

(** The end of [cat], once [others] is resolved to a storage. *)
Lemma cat_with_storage (self : StringMethods) (m : M (option nvs.nvstrings))
    (k : option nvs.nvstrings → M StringMethods.cat_result)
    (o : nvs.nvstrings) (sep na_rep : option string) (st st1 : dev) :
  m st = (Ok (Some o), st1) →
  k = (λ others,
         out ← call "cat" (nvs_cat (StringColumn.data (_parent self)) others sep na_rep);
         out ← StringColumn.__init__ (StringColumn.DataNv out) None None;
         if decide (StringColumn.__len__ out = 1 ∧ others = None) then
           mret (StringMethods.CatScalar (mjoin (StringColumn.data out !! 0)))
         else
           mret (StringMethods.CatSeries
                   (series.of_string_column out (_index self)
                      (StringMethods.parent_name self)))) →
  ∃ col st', (m ≫= k) st
             = (Ok (StringMethods.CatSeries
                      (series.of_string_column col (_index self) (_name (_parent self)))),
                st')
    ∧ _data col = nvs_cat (_data (_parent self)) (Some o) sep na_rep
    ∧ _null_count col = nvs.null_count (_data col).
Proof.
  intros Em ->. rewrite (bind_ok _ _ _ _ _ Em).
  unfold StringColumn.__init__, StringColumn.data, StringMethods.parent_name. run.
  destruct (0 <? _)%Z; run;
    (case_decide as Hone; [destruct Hone as [_ Hone]; discriminate|]);
    eexists; eexists; (split; [reflexivity|]); split; reflexivity.
Qed.

(** X10. With another operand, [cat] never returns a scalar: when it
    succeeds it returns a series over a new string column, also when
    that column has a single row. For a series of strings as the other
    operand it succeeds, and the column holds what the storage's [cat]
    gives for the two storages, under the parent's name and index. *)
Theorem cat_with_others_returns_a_series (self : StringMethods)
    (others : StringMethods.cat_others) (sep na_rep : option string) (st : dev) :
  (others ≠ StringMethods.OthersNone →
   ∀ r st', StringMethods.cat self others sep na_rep st = (Ok r, st') →
     ∃ col, r = StringMethods.CatSeries
                  (series.of_string_column col (_index self) (_name (_parent self)))
       ∧ _null_count col = nvs.null_count (_data col))
  ∧ (∀ c idx nm, others = StringMethods.OthersSeries
                            {| _column := StrCol c; index := idx; name := nm |} →
     ∃ col st', StringMethods.cat self others sep na_rep st
                = (Ok (StringMethods.CatSeries
                         (series.of_string_column col (_index self)
                            (_name (_parent self)))), st')
       ∧ _data col = nvs_cat (_data (_parent self)) (Some (_data c)) sep na_rep).
Proof.
  split.
  - intros Hothers r st' E. unfold StringMethods.cat in E.
    match type of E with
    | (?m ≫= ?k) st = _ =>
        destruct (m st) as [[o|e] st1] eqn:Em;
          [|rewrite (bind_raise _ _ _ _ _ Em) in E; discriminate];
        assert (Ho : ∃ x, o = Some x);
          [|destruct Ho as [x ->];
            destruct (cat_with_storage self m k x sep na_rep st st1 Em eq_refl)
              as (col & st2 & E2 & _ & Hnc);
            rewrite E2 in E; inversion E; eauto]
    end.
    destruct others as [|s|first rest|first rest|l]; [contradiction| | |..];
      [|unfold mbind, M_bind in Em;
        destruct (match first with
                  | inl l => series.host_data l
                  | inr c => mret (StringColumn.data c)
                  end st) as [[f0|e] st0]; [|discriminate]|..];
      apply fmap_ok_inv in Em as (x & -> & _); eauto.
  - intros c idx nm ->. unfold StringMethods.cat.
    match goal with
    | |- ∃ _ _, (?m ≫= ?k) st = _ ∧ _ =>
        destruct (cat_with_storage self m k (_data c) sep na_rep st st eq_refl eq_refl)
          as (col & st2 & E2 & Hd & _)
    end.
    eauto.
Qed.

(** The loop of [cat] over frames that are all of strings folds the
    storage's [cat] from the left. *)
Lemma cat_frames_ok (frames : list StringMethods.cat_item) (fs : list nvs.nvstrings)
    (first : nvs.nvstrings) (sep na_rep : option string) (st : dev) :
  Forall2 (λ it f, item_rows it = Some f) frames fs →
  ∃ st', StringMethods.cat_frames first frames sep na_rep st
         = (Ok (foldl (λ acc f, nvs_cat acc (Some f) sep na_rep) first fs), st').
Proof.
  intros Hall. revert first st.
  induction Hall as [|it f frames fs Hit _ IH]; intros first st; cbn.
  - eexists. reflexivity.
  - assert (Hframe : ∃ st1, (match it with
                             | StringMethods.ItemSeries s => StringMethods.string_data s
                             | StringMethods.ItemHost l => series.host_data l
                             end) st = (Ok f, st1)).
    { destruct it as [s|l]; cbn in Hit.
      - unfold StringMethods.string_data. destruct (_column s); inversion Hit. eauto.
      - inversion Hit; subst f. destruct (host_data_ok l st) as [new E]. eauto. }
    destruct Hframe as [st1 Hframe]. rewrite (bind_ok _ _ _ _ _ Hframe). run.
    apply IH.
Qed.

(** X11. A nested [others] (a list of list-likes and series, all of
    strings) is resolved from the left: the first element is the
    accumulator, every further one is appended to it with the
    storage's [cat] under the same [sep] and [na_rep], and the
    parent's rows are concatenated with the accumulated storage last.
    The result is a series. *)
Theorem cat_folds_nested_others_from_the_left (self : StringMethods)
    (first : list (option string) + StringColumn) (rest : list StringMethods.cat_item)
    (fs : list nvs.nvstrings) (sep na_rep : option string) (st : dev) :
  Forall2 (λ it f, item_rows it = Some f) rest fs →
  let f0 := match first with inl l => l | inr c => _data c end in
  let others := foldl (λ acc f, nvs_cat acc (Some f) sep na_rep) f0 fs in
  ∃ col st', StringMethods.cat self (StringMethods.OthersNested first rest) sep na_rep st
             = (Ok (StringMethods.CatSeries
                      (series.of_string_column col (_index self) (_name (_parent self)))),
                st')
    ∧ _data col = nvs_cat (_data (_parent self)) (Some others) sep na_rep.
Proof.
  intros Hall. cbv zeta. unfold StringMethods.cat.
  match goal with
  | |- ∃ _ _, (?m ≫= ?k) st = _ ∧ _ =>
      assert (Em : ∃ st1, m st = (Ok (Some (foldl (λ acc f, nvs_cat acc (Some f) sep na_rep)
                                              match first with
                                              | inl l => l
                                              | inr c => _data c
                                              end fs)), st1));
        [|destruct Em as [st1 Em];
          destruct (cat_with_storage self m k _ sep na_rep st st1 Em eq_refl)
            as (col & st2 & E2 & Hd & _); eauto]
  end.
  assert (Hfirst : ∃ st0, (match first with
                           | inl l => series.host_data l
                           | inr c => mret (StringColumn.data c)
                           end) st = (Ok match first with
                                         | inl l => l
                                         | inr c => _data c
                                         end, st0)).
  { destruct first as [l|c]; [|eexists; reflexivity].
    destruct (host_data_ok l st) as [new E]. eauto. }
  destruct Hfirst as [st0 Hfirst].
  destruct (cat_frames_ok rest fs match first with
                                  | inl l => l
                                  | inr c => _data c
                                  end sep na_rep st0 Hall) as [st1 Hframes].
  exists st1. rewrite (bind_ok _ _ _ _ _ Hfirst). apply fmap_ok. exact Hframes.
Qed.

(** X12. A series that is not of strings among the other operands
    makes [cat] fail on its assertion: given as [others] itself, before
    anything runs on the device; given after the first element of a
    nested [others], once the frames before it are concatenated. *)
Theorem cat_asserts_that_others_are_strings (self : StringMethods)
    (sep na_rep : option string) (st : dev) :
  (∀ c idx nm,
     StringMethods.cat self
       (StringMethods.OthersSeries {| _column := NumCol c; index := idx; name := nm |})
       sep na_rep st
     = (Raise AssertionError, st))
  ∧ (∀ first before bad after fs,
       Forall2 (λ it f, item_rows it = Some f) before fs →
       item_rows bad = None →
       ∃ st', StringMethods.cat self
                (StringMethods.OthersNested first (before ++ bad :: after)) sep na_rep st
              = (Raise AssertionError, st')
         ∧ calls "cat" st' = calls "cat" st + length before).
Proof.
  split; [reflexivity|].
  intros first before bad after fs Hall Hbad. unfold StringMethods.cat.
  assert (Hhost : ∀ l st0, ∃ st1, series.host_data l st0 = (Ok l, st1)
                                  ∧ calls "cat" st1 = calls "cat" st0).
  { intros l st0. unfold series.host_data.
    destruct (init_result (StringColumn.DataSeq l) None None st0 ltac:(discriminate))
      as (c & new & E & Hrows & _).
    exists (st0 ++ new). rewrite (bind_ok _ _ _ _ _ E). unfold StringColumn.data.
    rewrite Hrows. split; [reflexivity|].
    apply (init_calls _ _ _ _ _ _ "cat" E); discriminate. }
  assert (Hframes : ∀ acc st0, ∃ st1,
             StringMethods.cat_frames acc (before ++ bad :: after) sep na_rep st0
             = (Raise AssertionError, st1)
             ∧ calls "cat" st1 = calls "cat" st0 + length before).
  { clear st. induction Hall as [|it f frames fs Hit _ IH]; intros acc st0; cbn.
    - destruct bad as [s|l]; [|discriminate]. cbn in Hbad.
      unfold StringMethods.string_data. destruct (_column s); [discriminate|].
      eexists. split; [reflexivity | lia].
    - assert (Hframe : ∃ st1, (match it with
                               | StringMethods.ItemSeries s => StringMethods.string_data s
                               | StringMethods.ItemHost l => series.host_data l
                               end) st0 = (Ok f, st1)
                              ∧ calls "cat" st1 = calls "cat" st0).
      { destruct it as [s|l]; cbn in Hit.
        - unfold StringMethods.string_data. destruct (_column s); inversion Hit.
          exists st0. split; reflexivity.
        - inversion Hit; subst f. apply Hhost. }
      destruct Hframe as (st1 & Hframe & Hsame).
      rewrite (bind_ok _ _ _ _ _ Hframe). run.
      destruct (IH (nvs_cat acc (Some f) sep na_rep) (st1 ++ [EvCall "cat"]))
        as (st2 & E2 & Hc2).
      exists st2. split; [exact E2|].
      rewrite Hc2, calls_app, calls_call, Hsame.
      rewrite bool_decide_eq_true_2 by reflexivity. cbn [length]. lia. }
  assert (Hfirst : ∃ st0, (match first with
                           | inl l => series.host_data l
                           | inr c => mret (StringColumn.data c)
                           end) st = (Ok match first with
                                         | inl l => l
                                         | inr c => _data c
                                         end, st0)
                          ∧ calls "cat" st0 = calls "cat" st).
  { destruct first as [l|c]; [apply Hhost|]. exists st. split; reflexivity. }
  destruct Hfirst as (st0 & Hfirst & Hsame).
  destruct (Hframes match first with inl l => l | inr c => _data c end st0)
    as (st1 & E1 & Hc1).
  exists st1. split.
  - apply bind_raise. rewrite (bind_ok _ _ _ _ _ Hfirst). apply fmap_raise. exact E1.
  - rewrite Hc1, Hsame. reflexivity.
Qed.

End concatenation_with_others.

Lemma cat_with_others_returns_a_series_witness :
  ∃ col st', @StringMethods.cat plain_engine
               {| _parent := built [Some "a"]; _index := None |}
               (StringMethods.OthersSeries
                  (series.of_string_column (built [Some "b"]) None None))
               (Some "-") None []
             = (Ok (StringMethods.CatSeries (series.of_string_column col None None)), st')
    ∧ _data col = [Some "a-b"].
Proof.
  destruct (@cat_with_others_returns_a_series plain_engine
              {| _parent := built [Some "a"]; _index := None |}
              (StringMethods.OthersSeries
                 (series.of_string_column (built [Some "b"]) None None))
              (Some "-") None []) as [_ Hseries].
  destruct (Hseries (built [Some "b"]) None None eq_refl) as (col & st' & E & Hd).
  exists col, st'. split; [exact E | exact Hd].
Defined.

Lemma cat_folds_nested_others_from_the_left_witness :
  Forall2 (λ it f, item_rows it = Some f)
    [StringMethods.ItemHost [Some "x"; Some "y"]] [[Some "x"; Some "y"]]
  ∧ ∃ col st', @StringMethods.cat plain_engine
                 {| _parent := built [Some "a"; None]; _index := None |}
                 (StringMethods.OthersNested (inl [Some "1"; Some "2"])
                    [StringMethods.ItemHost [Some "x"; Some "y"]])
                 (Some ",") (Some "N") []
               = (Ok (StringMethods.CatSeries (series.of_string_column col None None)), st')
      ∧ _data col = [Some "a,1,x"; Some "N,2,y"].
Proof.
  assert (Hall : Forall2 (λ it f, item_rows it = Some f)
                   [StringMethods.ItemHost [Some "x"; Some "y"]] [[Some "x"; Some "y"]]).
  { repeat constructor. }
  split; [exact Hall|].
  destruct (@cat_folds_nested_others_from_the_left plain_engine
              {| _parent := built [Some "a"; None]; _index := None |}
              (inl [Some "1"; Some "2"]) _ _ (Some ",") (Some "N") [] Hall)
    as (col & st' & E & Hd).
  exists col, st'. split; [exact E | exact Hd].
Defined.

(** ** [replace], [lower], [split], [extract]: the outputs *)

(** [out_df[idx] = val] over the storages of [out]: one string column
    each, keyed by position. *)
Lemma fill_frame_ok (out_df : DataFrame) (idx : nat) (out : list nvs.nvstrings)
    (st : dev) :
  ∃ df new, StringMethods.fill_frame out_df idx out st = (Ok df, st ++ new)
    ∧ df_index df = df_index out_df
    ∧ fst <$> df_columns df = (fst <$> df_columns out_df) ++ seq idx (length out)
    ∧ (λ kc, _data kc.2) <$> df_columns df
      = ((λ kc, _data kc.2) <$> df_columns out_df) ++ out
    ∧ allocations new
      = length (List.filter (λ d, bool_decide (0 < nvs.null_count d)%Z) out).
Proof.
  revert out_df idx st. induction out as [|val out IH]; intros out_df idx st; cbn.
  - exists out_df, []. rewrite !app_nil_r. repeat split.
  - destruct (init_result (StringColumn.DataNv val) None None st ltac:(discriminate))
      as (c & new & E & Hrows & _ & Hnc & _ & _ & _ & _ & _ & _ & Halloc).
    rewrite (bind_ok _ _ _ _ _ E).
    destruct (IH {| df_index := df_index out_df;
                    df_columns := df_columns out_df ++ [(idx, c)] |} (S idx) (st ++ new))
      as (df & new' & E' & Hidx & Hkeys & Hdata & Halloc').
    exists df, (new ++ new'). rewrite app_assoc. split; [exact E'|].
    split; [exact Hidx|]. cbn in Hkeys, Hdata.
    rewrite Hkeys, Hdata, !fmap_app, <- !app_assoc. cbn. rewrite Hrows. cbn.
    repeat split. unfold allocations in *.
    rewrite List.filter_app, length_app, Halloc, Halloc'.
    cbn [default] in Hnc. rewrite Hnc. cbn [data_rows].
    destruct (0 <? nvs.null_count val)%Z eqn:Ez.
    + rewrite bool_decide_eq_true_2 by lia. reflexivity.
    + rewrite bool_decide_eq_false_2 by lia. reflexivity.
Qed.

Section outputs.
Context `{Engine}.

(** X13. [replace] with its supported defaults ([case=None],
    [flags=0]) and [lower] return a series under the parent's name and
    index over a new string column that holds the storage the engine
    returned; the column's null count and mask are taken from that
    storage, not from the parent. [replace] hands [n] to the engine as
    it is, except 0, which it turns into -1 (all occurrences). *)
Theorem replace_and_lower_wrap_the_output_of_the_engine (self : StringMethods) (st : dev) :
  let wraps (rows : nvs.nvstrings) (r : res Series * dev) :=
    ∃ col st', r = (Ok (series.of_string_column col (_index self) (_name (_parent self))),
                    st')
      ∧ _data col = rows
      ∧ _null_count col = nvs.null_count rows
      ∧ (_mask col = None ↔ ∀ i, rows !! i ≠ Some None) in
  (∀ pat repl n regex,
     wraps (nvs_replace pat repl (if decide (n = 0%Z) then (-1)%Z else n) regex
              (_data (_parent self)))
           (StringMethods.replace self pat repl n VNone 0 regex st))
  ∧ wraps (nvs_lower (_data (_parent self))) (StringMethods.lower self st).
Proof.
  cbv zeta.
  assert (Hwrap : ∀ rows st0, ∃ col st',
             series.of_nvstrings rows (_index self) (StringMethods.parent_name self) st0
             = (Ok (series.of_string_column col (_index self) (_name (_parent self))), st')
             ∧ _data col = rows ∧ _null_count col = nvs.null_count rows
             ∧ (_mask col = None ↔ ∀ i, rows !! i ≠ Some None)).
  { intros rows st0. unfold series.of_nvstrings.
    destruct (init_result (StringColumn.DataNv rows) None None st0 ltac:(discriminate))
      as (c & new & E & Hrows & _ & Hnc & _ & _ & Hpos & Hzero & _).
    cbn [default data_rows] in *. rewrite (bind_ok _ _ _ _ _ E).
    exists c, (st0 ++ new). split; [reflexivity|]. split; [exact Hrows|].
    split; [exact Hnc|]. rewrite <- null_count_zero_iff.
    pose proof (null_count_nonneg rows). split.
    - intros Hm. destruct (decide (0 < _null_count c)%Z) as [Hp|Hp]; [|lia].
      destruct (Hpos Hp) as (p & _ & Hsome). congruence.
    - intros Hz. apply Hzero. lia. }
  split.
  - intros pat repl n regex. unfold StringMethods.replace. cbn [is_None negb].
    case_decide; [contradiction|]. run. apply Hwrap.
  - unfold StringMethods.lower. run. apply Hwrap.
Qed.

(** X14. [split] with [expand=True] returns a table under the
    parent's index with one string column per storage the engine
    returned, keyed 0, 1, 2, ... in the engine's order (no column when
    it returned none), each holding that storage; the engine is asked
    for [n] splits as given, except 0, which becomes -1. A device
    buffer is allocated only for the mask of each output that has a
    null. *)
Theorem split_returns_one_column_per_output (self : StringMethods)
    (pat : option string) (n : Z) (st : dev) :
  let out := nvs_split pat (if decide (n = 0%Z) then (-1)%Z else n)
               (_data (_parent self)) in
  ∃ df new, StringMethods.split self pat n (VBool true) st = (Ok df, st ++ new)
    ∧ df_index df = _index self
    ∧ fst <$> df_columns df = seq 0 (length out)
    ∧ (λ kc, _data kc.2) <$> df_columns df = out
    ∧ allocations new
      = length (List.filter (λ d, bool_decide (0 < nvs.null_count d)%Z) out).
Proof.
  cbv zeta. unfold StringMethods.split. cbn [is_True negb]. run.
  match goal with
  | |- context [StringMethods.fill_frame ?df ?i ?out ?st0] =>
      destruct (fill_frame_ok df i out st0) as (df' & new & E & Hidx & Hkeys & Hdata & Ha)
  end.
  exists df', ([EvCall "split"] ++ new). rewrite app_assoc. split; [exact E|].
  split; [exact Hidx|]. split; [exact Hkeys|]. split; [exact Hdata|].
  exact Ha.
Qed.

(** X15. [extract] with [flags=0] returns a single series exactly
    when the pattern has one capture group and [expand] is [False]:
    the series holds that group's storage under the parent's name and
    index. In every other case (several groups, no group, or [expand]
    anything but [False]) it returns a table with one string column
    per group, keyed 0, 1, 2, ... in order. *)
Theorem extract_returns_a_series_for_one_group_unexpanded (self : StringMethods)
    (pat : string) (expand : value) (st : dev) :
  let out := nvs_extract pat (_data (_parent self)) in
  ∃ r st', StringMethods.extract self pat 0 expand st = (Ok r, st')
    ∧ (length out = 1 ∧ expand = VBool false →
         ∃ col, r = StringMethods.RSeries
                      (series.of_string_column col (_index self) (_name (_parent self)))
           ∧ out = [_data col])
    ∧ (¬ (length out = 1 ∧ expand = VBool false) →
         ∃ df, r = StringMethods.RFrame df
           ∧ df_index df = _index self
           ∧ fst <$> df_columns df = seq 0 (length out)
           ∧ (λ kc, _data kc.2) <$> df_columns df = out).
Proof.
  cbv zeta. unfold StringMethods.extract. case_decide; [contradiction|]. step.
  unfold StringColumn.data in *.
  remember (nvs_extract pat (_data (_parent self))) as out eqn:Hout. clear Hout.
  destruct (bool_decide (length out = 1) && is_False expand) eqn:Eb.
  - apply andb_prop in Eb as [Hlen Hexp]. apply bool_decide_eq_true in Hlen.
    assert (expand = VBool false) as -> by (destruct expand as [|[]| | | |]; now inversion Hexp).
    destruct out as [|out0 [|]]; try discriminate.
    unfold series.of_nvstrings.
    destruct (init_result (StringColumn.DataNv out0) None None
                (st ++ [EvCall "extract"]) ltac:(discriminate))
      as (c & new & E & Hrows & _).
    step. rewrite E.
    eexists; eexists. split; [reflexivity|]. split.
    + intros _. exists c. split; [reflexivity|]. now rewrite Hrows.
    + intros Hnot. exfalso. apply Hnot. split; reflexivity.
  - match goal with
    | |- context [StringMethods.fill_frame ?df ?i ?o ?st0] =>
        destruct (fill_frame_ok df i o st0) as (df' & new & E & Hidx & Hkeys & Hdata & _)
    end.
    step. rewrite E.
    eexists; eexists. split; [reflexivity|]. split.
    + intros [Hlen ->]. rewrite bool_decide_eq_true_2 in Eb by exact Hlen. discriminate.
    + intros _. exists df'. repeat split; assumption.
Qed.

End outputs.

(** ** The category caches, [unique] and [is_unique] *)

Lemma length_store (a : ndarray) (v : list Z) :
  length (a_items (store a v)) = length (a_items a).
Proof. unfold store. cbn. rewrite length_app, length_take, length_drop. lia. Qed.

Section categories.
Context `{MoreEngine}.


End categories.


Section uniqueness_more.
Context `{Engine}.

(** X17. [unique] neither reads nor fills the column's category
    cache: whatever the cache holds, it builds a category from the
    strings again (one more call on every use), and the column of keys
    it returns has empty caches and no name. *)
Theorem unique_rebuilds_the_category (self : StringColumn) (kept : option nvs.nvstrings)
    (m : value) (st : dev) :
  StringColumn.unique (StringColumnRest.set_nvcategory self kept) m st
    = StringColumn.unique self m st
  ∧ ∃ c new, StringColumn.unique self m st = (Ok c, st ++ new)
      ∧ calls "nvcategory.from_strings.keys" new = 1
      ∧ _data c = nvc_keys (_data self)
      ∧ _nvcategory c = None ∧ _indices c = None ∧ _name c = None.
Proof.
  split; [reflexivity|].
  unfold StringColumn.unique. step.
  destruct (init_result (StringColumn.DataNv (nvc_keys (StringColumn.data self)))
              None None (st ++ [EvCall "nvcategory.from_strings.keys"])
              ltac:(discriminate))
    as (c & new & E & Hrows & Hname & _ & Hcat & Hidx & _).
  exists c, ([EvCall "nvcategory.from_strings.keys"] ++ new).
  rewrite app_assoc. split; [exact E|].
  split.
  - rewrite calls_app, calls_call, bool_decide_eq_true_2 by reflexivity.
    rewrite <- (Nat.add_0_r 1) at 2. f_equal.
    pose proof (init_calls _ _ _ _ _ _ "nvcategory.from_strings.keys" E
                  ltac:(discriminate) ltac:(discriminate) ltac:(discriminate)) as Hc.
    rewrite calls_app in Hc. lia.
  - repeat split; assumption.
Qed.

(** X18. [is_unique] compares the number of category keys with the
    number of rows. With a category engine whose keys are the distinct
    rows (no key twice, and exactly the rows that occur, a null row
    counting as a row), it answers [True] exactly when no row occurs
    twice; two null rows make a column not unique. *)
Theorem is_unique_iff_no_row_occurs_twice (self : StringColumn) (st : dev) :
  NoDup (nvc_keys (_data self)) →
  (∀ row, row ∈ nvc_keys (_data self) ↔ row ∈ _data self) →
  ∃ b st', StringColumnRest.is_unique self st = (Ok b, st')
    ∧ (b = true ↔ NoDup (_data self)).
Proof.
  intros Hnodup Hsame. unfold StringColumnRest.is_unique, StringColumn.unique. step.
  destruct (init_result (StringColumn.DataNv (nvc_keys (StringColumn.data self)))
              None None (st ++ [EvCall "nvcategory.from_strings.keys"])
              ltac:(discriminate))
    as (c & new & E & Hrows & _).
  rewrite E. eexists; eexists. split; [reflexivity|].
  unfold StringColumn.__len__, nvs.size, StringColumn.data in *.
  rewrite Hrows. cbn [data_rows]. rewrite bool_decide_eq_true. split.
  - intros Hlen.
    assert (Hperm : nvc_keys (_data self) ≡ₚ _data self).
    { apply submseteq_length_Permutation; [|lia].
      apply NoDup_submseteq; [exact Hnodup|]. intros x. apply Hsame. }
    now rewrite <- Hperm.
  - intros Hd. apply Permutation_length.
    apply NoDup_Permutation; assumption.
Qed.

End uniqueness_more.

Lemma is_unique_iff_no_row_occurs_twice_witness :
  NoDup (@nvc_keys plain_engine (_data (built [Some "a"; None; None])))
  ∧ (∀ row, row ∈ @nvc_keys plain_engine (_data (built [Some "a"; None; None]))
            ↔ row ∈ _data (built [Some "a"; None; None]))
  ∧ ∃ st', @StringColumnRest.is_unique plain_engine (built [Some "a"; None; None]) []
           = (Ok false, st').
Proof.
  assert (Hn : NoDup (@nvc_keys plain_engine (_data (built [Some "a"; None; None])))).
  { apply NoDup_remove_dups. }
  assert (Hs : ∀ row, row ∈ @nvc_keys plain_engine (_data (built [Some "a"; None; None]))
                      ↔ row ∈ _data (built [Some "a"; None; None])).
  { intros row. apply elem_of_remove_dups. }
  split; [exact Hn|]. split; [exact Hs|].
  destruct (@is_unique_iff_no_row_occurs_twice plain_engine
              (built [Some "a"; None; None]) [] Hn Hs) as (b & st' & E & Hb).
  exists st'. rewrite E. vm_compute in E. now inversion E.
Defined.

(** ** [sort_by_values] and [find_and_replace] *)

Section sorting.
Context `{MoreEngine}.

(** X19. [sort_by_values] understands "last" and "first" as
    [na_position]: for any other value it raises [NameError]
    ([nullfirst] was never bound) after the index buffer is allocated
    and before the storage is asked to order anything. For "last" and
    "first" it succeeds with the pair of the gathered column and the
    index column; the index column is an unmasked int32 column with an
    entry per row, it is what the storage's [order] wrote given
    [ascending] and nulls first exactly for "first", and the sorted
    column holds the rows gathered at those indices. *)
Theorem sort_by_values_needs_a_known_na_position (self : StringColumn) (ascending : bool)
    (na_position : string) (st : dev) :
  (na_position ≠ "last" → na_position ≠ "first" →
     StringColumnRest.sort_by_values self ascending na_position st
     = (Raise (NameError "nullfirst"),
        st ++ [EvDeviceArray (StringColumn.__len__ self) Int32]))
  ∧ (na_position = "last" ∨ na_position = "first" →
     ∃ keys inds st',
       StringColumnRest.sort_by_values self ascending na_position st
         = (Ok (keys, inds), st')
       ∧ tc_mask inds = None ∧ tc_dtype inds = Int32
       ∧ length (a_items (mem (tc_data inds))) = StringColumn.__len__ self
       ∧ mem (tc_data inds)
         = store {| a_place := OnDevice (length st); a_dtype := Int32;
                    a_items := replicate (StringColumn.__len__ self) 0%Z |}
             (nvs_order ascending (bool_decide (na_position = "first")) (_data self))
       ∧ _data keys = nvs_gather (a_items (mem (tc_data inds))) (_data self)
       ∧ _null_count keys = nvs.null_count (_data keys)).
Proof.
  unfold StringColumnRest.sort_by_values, StringColumnRest.getitem_indices,
    StringColumn.data.
  split.
  - intros Hl Hf. do 2 (case_decide; [contradiction|]). reflexivity.
  - intros Hpos.
    assert (Hnf : (if decide (na_position = "last") then Some false
                   else if decide (na_position = "first") then Some true else None)
                  = Some (bool_decide (na_position = "first"))).
    { destruct Hpos as [-> | ->]; reflexivity. }
    rewrite Hnf. step.
    match goal with
    | |- context [StringColumn.__init__ ?d None None ?st0] =>
        destruct (init_result d None None st0 ltac:(discriminate))
          as (c & new & E & Hrows & _ & Hnc & _)
    end.
    rewrite E. eexists; eexists; eexists. split; [reflexivity|].
    cbn [tc_mask tc_dtype tc_data build_column mem].
    split; [reflexivity|]. split; [reflexivity|].
    split; [rewrite length_store; cbn [a_items]; apply length_replicate|].
    split; [reflexivity|]. cbn [default data_rows] in *.
    split; [exact Hrows|]. now rewrite Hnc, Hrows.
Qed.

(** X20. [find_and_replace] replaces single values only: unless both
    sequences have exactly one element it raises
    [NotImplementedError], and the storage's [replace] never runs.
    With one element each it succeeds, whatever [all_nan] is, with a
    column under the name of this one that holds what the storage's
    [replace] gives for the two values. *)
Theorem find_and_replace_takes_single_values (self : StringColumn)
    (to_replace replacement : list (option string)) (all_nan : value) (st : dev) :
  (length to_replace ≠ 1 ∨ length replacement ≠ 1 →
     ∃ st', StringColumnRest.find_and_replace self to_replace replacement all_nan st
            = (Raise (NotImplementedError
                 "StringColumn currently only supports replacing single values"), st')
       ∧ calls "replace" st' = calls "replace" st)
  ∧ (∀ t r, to_replace = [t] → replacement = [r] →
     ∃ col st', StringColumnRest.find_and_replace self to_replace replacement all_nan st
                = (Ok col, st')
       ∧ _data col = nvs_replace_value t r (_data self)
       ∧ _name col = _name self
       ∧ calls "replace" st' = calls "replace" st + 1).
Proof.
  unfold StringColumnRest.find_and_replace, StringColumnRest.replace_data.
  destruct (init_result (StringColumn.DataSeq to_replace) None None st
              ltac:(discriminate)) as (c1 & new1 & E1 & Hrows1 & _).
  destruct (init_result (StringColumn.DataSeq replacement) None None (st ++ new1)
              ltac:(discriminate)) as (c2 & new2 & E2 & Hrows2 & _).
  pose proof (init_calls _ _ _ _ _ _ "replace" E1
                ltac:(discriminate) ltac:(discriminate) ltac:(discriminate)) as Hc1.
  pose proof (init_calls _ _ _ _ _ _ "replace" E2
                ltac:(discriminate) ltac:(discriminate) ltac:(discriminate)) as Hc2.
  rewrite (bind_ok _ _ _ _ _ E1), (bind_ok _ _ _ _ _ E2).
  unfold StringColumn.__len__, nvs.size, StringColumn.data.
  rewrite Hrows1, Hrows2. cbn [data_rows].
  split.
  - intros Hlen. case_decide; [lia|]. eexists. split; [reflexivity|]. congruence.
  - intros t r -> ->. case_decide; [|cbn in *; lia]. step.
    match goal with
    | |- context [StringColumn.__init__ ?d ?nc ?nm ?st0] =>
        destruct (init_result d nc nm st0 ltac:(discriminate))
          as (c & new & E & Hrows & Hname & _);
        pose proof (init_calls _ _ _ _ _ _ "replace" E
                      ltac:(discriminate) ltac:(discriminate) ltac:(discriminate)) as Hc
    end.
    rewrite E. exists c. eexists. split; [reflexivity|].
    split; [exact Hrows|]. split; [exact Hname|].
    rewrite Hc, !calls_app, !calls_call.
    rewrite (bool_decide_eq_true_2 ("replace" = "replace")) by reflexivity.
    rewrite !bool_decide_eq_false_2 by discriminate.
    rewrite !calls_app in Hc1, Hc2. lia.
Qed.

End sorting.

Lemma sort_by_values_needs_a_known_na_position_witness :
  @StringColumnRest.sort_by_values plain_more_engine column_a_null_c true "middle" []
    = (Raise (NameError "nullfirst"), [EvDeviceArray 3 Int32])
  ∧ ∃ keys inds st',
      @StringColumnRest.sort_by_values plain_more_engine column_a_null_c true "first" []
        = (Ok (keys, inds), st')
      ∧ a_items (mem (tc_data inds)) = [0%Z; 1%Z; 2%Z]
      ∧ _data keys = [Some "a"; None; Some "c"].
Proof.
  destruct (@sort_by_values_needs_a_known_na_position plain_more_engine
              column_a_null_c true "middle" []) as [Hbad _].
  destruct (@sort_by_values_needs_a_known_na_position plain_more_engine
              column_a_null_c true "first" []) as [_ Hgood].
  split.
  - apply Hbad; discriminate.
  - destruct (Hgood (or_intror eq_refl))
      as (keys & inds & st' & E & _ & _ & _ & Hmem & Hkeys & _).
    exists keys, inds, st'. split; [exact E|].
    assert (Hitems : a_items (mem (tc_data inds)) = [0%Z; 1%Z; 2%Z]).
    { rewrite Hmem. reflexivity. }
    split; [exact Hitems|]. rewrite Hkeys, Hitems. reflexivity.
Defined.

Lemma find_and_replace_takes_single_values_witness :
  (∃ st', @StringColumnRest.find_and_replace plain_more_engine column_a_null_c
            [Some "a"; Some "c"] [Some "x"] VNone []
          = (Raise (NotImplementedError
               "StringColumn currently only supports replacing single values"), st'))
  ∧ ∃ col st', @StringColumnRest.find_and_replace plain_more_engine column_a_null_c
                 [Some "a"] [Some "x"] VNone []
               = (Ok col, st').
Proof.
  split.
  - destruct (@find_and_replace_takes_single_values plain_more_engine column_a_null_c
                [Some "a"; Some "c"] [Some "x"] VNone []) as [Hbad _].
    destruct (Hbad ltac:(left; cbn; lia)) as (st' & E & _). eauto.
  - destruct (@find_and_replace_takes_single_values plain_more_engine column_a_null_c
                [Some "a"] [Some "x"] VNone []) as [_ Hgood].
    destruct (Hgood _ _ eq_refl eq_refl) as (col & st' & E & _). eauto.
Defined.

(** ** [fillna]: the column returned *)

Lemma length_fill_rows (d f : nvs.nvstrings) : length (nvs.fill_rows d f) = length d.
Proof. revert f. induction d as [|r d IH]; intros f; cbn; [|rewrite IH]; reflexivity. Qed.

(** X21. Whenever [fillna] succeeds, the column it builds has as many
    rows as this one, a null count taken from the filled storage, and
    no name, whatever the name of this column; without [inplace] this
    column is left as it was. *)
Theorem fillna_returns_an_unnamed_column_of_the_same_length (self : StringColumn)
    (fill_value : StringColumn.fill_arg) (inplace : bool) (st st' : dev)
    (self' : StringColumn) (ret : option StringColumn) :
  StringColumn.fillna self fill_value inplace st = (Ok (self', ret), st') →
  ∃ r, (self', ret) = StringColumn._mimic_inplace self r inplace
    ∧ StringColumn.__len__ r = StringColumn.__len__ self
    ∧ _null_count r = nvs.null_count (_data r)
    ∧ _name r = None
    ∧ (inplace = false → self' = self ∧ ret = Some r).
Proof.
  unfold StringColumn.fillna.
  match goal with
  | |- (?m ≫= ?k) st = _ → _ => destruct (m st) as [[fill|e] st0] eqn:Em
  end; [|intros E; rewrite (bind_raise _ _ _ _ _ Em) in E; discriminate].
  rewrite (bind_ok _ _ _ _ _ Em). unfold StringColumn.replace_mask. step.
  assert (Hlen : length (nvs.fillna (_data self) fill) = length (_data self)).
  { destruct fill as [s|f]; cbn; [apply length_fmap | apply length_fill_rows]. }
  match goal with
  | |- context [StringColumn.__init__ ?d None None ?st1] =>
      destruct (init_result d None None st1 ltac:(discriminate))
        as (c & new & E & Hrows & Hname & _)
  end.
  rewrite E.
  destruct (init_result (StringColumn.DataNv (_data c)) None (_name c)
              ((st0 ++ [EvCall "fillna"]) ++ new) ltac:(discriminate))
    as (c' & new' & E' & Hrows' & Hname' & Hnc' & _).
  rewrite E'. intros Eq. inversion Eq as [[Hpair Hst]].
  exists c'. split; [reflexivity|].
  cbn [data_rows default] in *. unfold StringColumn.__len__, nvs.size.
  rewrite Hrows', Hrows, Hlen. split; [reflexivity|].
  split; [now rewrite Hnc', Hrows|]. split; [now rewrite Hname'|].
  intros ->. cbn in Hpair. inversion Hpair. split; reflexivity.
Qed.

Lemma fillna_returns_an_unnamed_column_of_the_same_length_witness :
  ∃ self r st',
    StringColumn.fillna self (StringColumn.FillValue (VStr "y")) false [] = (Ok (self, Some r), st')
    ∧ _name self = Some "col" ∧ _name r = None
    ∧ StringColumn.__len__ r = StringColumn.__len__ self.
Proof.
  set (self := {| _data := [Some "x"; None]; _name := Some "col"; _null_count := 1;
                  _mask := None; _nvcategory := None; _indices := None |}).
  destruct (StringColumn.fillna self (StringColumn.FillValue (VStr "y")) false [])
    as [[[self' ret]|e] st'] eqn:E; [|vm_compute in E; discriminate].
  destruct (fillna_returns_an_unnamed_column_of_the_same_length self
              (StringColumn.FillValue (VStr "y")) false [] st' self' ret E)
    as (r & _ & Hlen & _ & Hname & Hret).
  destruct (Hret eq_refl) as [-> ->].
  exists self, r, st'. repeat split; assumption.
Defined.
